(** * Conversation-state reconciliation of the ELYZA chat demo (app.py)

    A shallow embedding of the pure parts of [app.py]: the turn list
    ([chatbot], a list of (user message, assistant message) pairs), the
    parallel identifier list ([uuid_list]), the reconciler [assign_uuid],
    the audit record built by [output_log], the input gate
    [check_input_token_length], the generator [generate] and the event
    chains wired to the buttons.

    Python exceptions are results of type [PyResult]; the calls to
    [uuid.uuid4()] are threaded through a counter of calls made so far. *)

From stdpp Require Import list strings pretty.
From Stdlib Require Import ZArith Lia.

Local Open Scope string_scope.
Local Open Scope list_scope.

(** ** Python values and exceptions *)

(** The exceptions the modelled code can raise. [GrError] is [gr.Error]
    with its message. *)
Inductive exn : Type :=
| IndexError
| ValueError
| GrError (msg : string).

Inductive PyResult (A : Type) : Type :=
| Ok (a : A)
| Raise (e : exn).
Arguments Ok {A} a.
Arguments Raise {A} e.

#[global] Instance PyResult_ret : MRet PyResult := @Ok.
#[global] Instance PyResult_bind : MBind PyResult := fun A B k r =>
  match r with
  | Ok a => k a
  | Raise e => Raise e
  end.

(** [list[tuple[str, str]]], for the history and for the identifier list. *)
Abbreviation turn := (string * string)%type.
Abbreviation uuid_pair := (string * string)%type.

(** [l[i]] for a Python int [i]: negative indices count from the end,
    anything out of range raises [IndexError]. *)
Definition py_index {A} (l : list A) (i : Z) : PyResult A :=
  let n := Z.of_nat (length l) in
  let j := if (i <? 0)%Z then (i + n)%Z else i in
  if ((j <? 0)%Z || (n <=? j)%Z)%bool then Raise IndexError
  else match l !! Z.to_nat j with
       | Some x => Ok x
       | None => Raise IndexError
       end.

(** [l.pop()]: the list without its last element; [IndexError] on an
    empty list. The popped element is discarded where the source pops. *)
Definition pop {A} (l : list A) : PyResult (list A) :=
  match l with
  | [] => Raise IndexError
  | _ :: _ => Ok (removelast l)
  end.

(** ** The monad of [assign_uuid]: exceptions over a count of
    [uuid.uuid4()] calls *)

Definition M (A : Type) : Type := nat -> PyResult (A * nat).

Definition ret {A} (a : A) : M A := fun c => Ok (a, c).

Definition bind {A B} (m : M A) (k : A -> M B) : M B :=
  fun c => match m c with
           | Ok (a, c') => k a c'
           | Raise e => Raise e
           end.

Definition lift {A} (r : PyResult A) : M A :=
  fun c => match r with
           | Ok a => Ok (a, c)
           | Raise e => Raise e
           end.

#[global] Instance M_ret : MRet M := @ret.
#[global] Instance M_bind : MBind M := fun A B k m => bind m k.

(** A [for] loop whose body updates one local variable. *)
Fixpoint for_each {A B} (body : A -> B -> M A) (acc : A) (xs : list B) : M A :=
  match xs with
  | [] => ret acc
  | x :: xs' => acc' ← body acc x; for_each body acc' xs'
  end.

Section App.

(** [uuid4_str k] is the string that the [k]-th evaluation of
    [str(uuid.uuid4())] returns. *)
Variable uuid4_str : nat -> string.

Definition uuid4 : M string := fun c => Ok (uuid4_str c, S c).

(** ** [assign_uuid] *)

(** Body of the loop over [history[len_uuid_list:]]. The tuple
    [(str(uuid.uuid4()), str(uuid.uuid4()))] is evaluated left to right. *)
Definition grow_body (new_uuid_list : list uuid_pair) (t_history : turn)
  : M (list uuid_pair) :=
  if decide (t_history.2 = "") then
    u ← uuid4;
    ret (new_uuid_list ++ [(u, "")])
  else
    u ← uuid4;
    a ← uuid4;
    ret (new_uuid_list ++ [(u, a)]).

(** Body of the loop over [zip(history, uuid_list)]. *)
Definition scan_body (new_uuid_list : list uuid_pair) (p : turn * uuid_pair)
  : M (list uuid_pair) :=
  let '(t_history, t_uuid) := p in
  if decide (t_history.2 ≠ "" ∧ t_uuid.2 = "") then
    popped ← lift (pop new_uuid_list);
    a ← uuid4;
    ret (popped ++ [(t_uuid.1, a)])
  else if decide (t_history.2 = "" ∧ t_uuid.2 ≠ "") then
    popped ← lift (pop new_uuid_list);
    ret (popped ++ [(t_uuid.1, "")])
  else ret new_uuid_list.

Definition assign_uuid (history : list turn) (uuid_list : list uuid_pair)
  : M (list uuid_pair) :=
  let len_history := length history in
  let len_uuid_list := length uuid_list in
  let new_uuid_list := uuid_list in
  if decide (len_uuid_list < len_history) then (* len_history > len_uuid_list *)
    for_each grow_body new_uuid_list (drop len_uuid_list history)
  else if decide (len_history < len_uuid_list) then
    ret (take len_history new_uuid_list)
  else
    for_each scan_body new_uuid_list (zip history uuid_list).

(** ** The small handlers *)

Definition clear_and_save_textbox (message : string) : string * string :=
  ("", message).

(** [history.append((message, ''))]; the list is returned. *)
Definition display_input (message : string) (history : list turn) : list turn :=
  history ++ [(message, "")].

(** [history.pop()] with the [IndexError] of an empty list caught;
    [message or ''] is [message] for a [str]. *)
Definition delete_prev_fn (history : list turn) : list turn * string :=
  match last history with
  | Some (message, _) => (removelast history, message)
  | None => (history, "")
  end.

(** ** [check_input_token_length] *)

Definition MAX_MAX_NEW_TOKENS : Z := 2048.
Definition DEFAULT_MAX_NEW_TOKENS : Z := 512.
Definition MAX_INPUT_TOKEN_LENGTH : Z := 4000.

(** [get_input_token_length] of [model_vllm], the tokenizer's count. *)
Variable get_input_token_length : string -> list turn -> string -> Z.

(** The messages of the two [gr.Error]s; the first one interpolates the
    two lengths in decimal. *)
Definition too_long_msg (input_token_length : Z) : string :=
  "合計対話長が長すぎます (" +:+ pretty input_token_length +:+ " > "
    +:+ pretty MAX_INPUT_TOKEN_LENGTH
    +:+ ")。入力文章を短くするか、「🗑️  これまでの出力を消す」ボタンを押してから再実行してください。".
Definition empty_msg : string :=
  "入力が空です。1文字以上の文字列を入力してください。".

(** [len(message) <= 0] holds for the empty string only, whether the
    length counts code points or bytes. *)
Definition check_input_token_length
    (message : string) (chat_history : list turn) (system_prompt : string)
  : PyResult unit :=
  let input_token_length :=
    get_input_token_length message chat_history system_prompt in
  if decide (input_token_length > MAX_INPUT_TOKEN_LENGTH)%Z then
    Raise (GrError (too_long_msg input_token_length))
  else if decide (String.length message <= 0) then
    Raise (GrError empty_msg)
  else Ok ().

(** ** [generate] *)

(** Python floats are passed through to the model untouched. *)
Variable pyfloat : Type.

(** [run] of [model_vllm] with [stream=True]: the partial responses the
    stream delivers, in order. *)
Variable run :
  string -> list turn -> string -> Z -> pyfloat -> pyfloat -> Z -> bool ->
  pyfloat -> list string.

(** The values [generate] yields, in order, or the [ValueError] it raises
    before it yields anything. [history_with_input[:-1]] drops the last
    element and is empty on an empty list. *)
Definition generate
    (message : string) (history_with_input : list turn)
    (system_prompt : string) (max_new_tokens : Z)
    (temperature top_p : pyfloat) (top_k : Z) (do_sample : bool)
    (repetition_penalty : pyfloat)
  : PyResult (list (list turn)) :=
  if decide (max_new_tokens > MAX_MAX_NEW_TOKENS)%Z then Raise ValueError
  else
    let history := take (length history_with_input - 1) history_with_input in
    let stream :=
      run message history system_prompt max_new_tokens temperature top_p
          top_k do_sample repetition_penalty in
    Ok ((fun response => history ++ [(message, response)]) <$> stream).

(** ** [convert_history_to_str] *)

(** [sep.join(l)] *)
Fixpoint join (sep : string) (l : list string) : string :=
  match l with
  | [] => ""
  | [x] => x
  | x :: l' => x +:+ sep +:+ join sep l'
  end.

Definition convert_history_to_str (history : list turn) : string :=
  let res :=
    foldl (fun res '(user_utt, sys_utt) =>
             res ++ ["😃: " +:+ user_utt] ++ ["🤖: " +:+ sys_utt])
          [] history in
  join "<br>" res.

(** ** [output_log] *)

(** The dictionary [d] that [output_log] builds and uploads. *)
Record AuditRecord : Type := {
  created_at : string;
  tree_uuid : string;
  parent_uuid : string;
  uuid : string;
  role : string;
  message : string;
}.

(** [output_log] up to the dictionary [d]; [now] is the formatted
    [created_at]. The upload that follows sits in a [try] whose
    [except Exception] only logs, so it neither raises nor changes the
    conversation, and the function returns [None] after it. *)
Definition output_log
    (now : string) (history : list turn) (uuid_list : list uuid_pair)
  : PyResult AuditRecord :=
  first_uuids ← py_index uuid_list 0;
  let tree_uuid := first_uuids.1 in
  last_messages ← py_index history (-1);
  last_uuids ← py_index uuid_list (-1);
  if decide (last_uuids.2 = "") then
    parent_uuid ←
      (if decide (2 <= length history) then
         prev_uuids ← py_index uuid_list (-2);
         Ok prev_uuids.2
       else Ok last_uuids.1);
    Ok {| created_at := now; tree_uuid := tree_uuid;
          parent_uuid := parent_uuid; uuid := last_uuids.1;
          role := "user"; message := last_messages.1 |}
  else
    Ok {| created_at := now; tree_uuid := tree_uuid;
          parent_uuid := last_uuids.1; uuid := last_uuids.2;
          role := "assistant"; message := last_messages.2 |}.

(** ** The event chains *)

(** The values of the components an event chain reads and writes, with
    the count of [uuid.uuid4()] calls, the count of [output_log] calls
    that reached the clock, and the records handed to the upload. *)
Record Session : Type := {
  textbox : string;
  saved_input : string;
  chatbot : list turn;
  uuid_list : list uuid_pair;
  output_textbox : string;
  uuid_calls : nat;
  clock_calls : nat;
  audit : list AuditRecord;
}.

(** The components of the settings panel, which no chain writes. *)
Record Settings : Type := {
  system_prompt : string;
  max_new_tokens : Z;
  temperature : pyfloat;
  top_p : pyfloat;
  top_k : Z;
  do_sample : bool;
  repetition_penalty : pyfloat;
}.

(** [strftime_now k] is [created_at] at the [k]-th reading of the clock. *)
Variable strftime_now : nat -> string.

Variable cfg : Settings.

Definition set_chatbot (s : Session) (h : list turn) : Session :=
  {| textbox := textbox s; saved_input := saved_input s; chatbot := h;
     uuid_list := uuid_list s; output_textbox := output_textbox s;
     uuid_calls := uuid_calls s; clock_calls := clock_calls s;
     audit := audit s |}.

(** Each step calls its [fn] on the values of its [inputs] and stores
    the result in its [outputs]; a step that raises stores nothing. *)
Definition step_clear_and_save_textbox (s : Session) : PyResult Session :=
  let '(t, m) := clear_and_save_textbox (textbox s) in
  Ok {| textbox := t; saved_input := m; chatbot := chatbot s;
        uuid_list := uuid_list s; output_textbox := output_textbox s;
        uuid_calls := uuid_calls s; clock_calls := clock_calls s;
        audit := audit s |}.

Definition step_check_input_token_length (s : Session) : PyResult Session :=
  _ ← check_input_token_length (saved_input s) (chatbot s) (system_prompt cfg);
  Ok s.

Definition step_display_input (s : Session) : PyResult Session :=
  Ok (set_chatbot s (display_input (saved_input s) (chatbot s))).

Definition step_delete_prev_fn (s : Session) : PyResult Session :=
  let '(h, m) := delete_prev_fn (chatbot s) in
  Ok {| textbox := textbox s; saved_input := m; chatbot := h;
        uuid_list := uuid_list s; output_textbox := output_textbox s;
        uuid_calls := uuid_calls s; clock_calls := clock_calls s;
        audit := audit s |}.

Definition step_assign_uuid (s : Session) : PyResult Session :=
  '(l, c) ← assign_uuid (chatbot s) (uuid_list s) (uuid_calls s);
  Ok {| textbox := textbox s; saved_input := saved_input s;
        chatbot := chatbot s; uuid_list := l;
        output_textbox := output_textbox s; uuid_calls := c;
        clock_calls := clock_calls s; audit := audit s |}.

Definition step_output_log (s : Session) : PyResult Session :=
  d ← output_log (strftime_now (clock_calls s)) (chatbot s) (uuid_list s);
  Ok {| textbox := textbox s; saved_input := saved_input s;
        chatbot := chatbot s; uuid_list := uuid_list s;
        output_textbox := output_textbox s; uuid_calls := uuid_calls s;
        clock_calls := S (clock_calls s); audit := audit s ++ [d] |}.

(** Every value [generate] yields is stored in [chatbot]; the step ends
    with the last one, or with [chatbot] as it was when nothing is
    yielded. *)
Definition step_generate (s : Session) : PyResult Session :=
  ys ← generate (saved_input s) (chatbot s) (system_prompt cfg)
        (max_new_tokens cfg) (temperature cfg) (top_p cfg) (top_k cfg)
        (do_sample cfg) (repetition_penalty cfg);
  Ok (set_chatbot s (default (chatbot s) (last ys))).

Definition step_convert_history_to_str (s : Session) : PyResult Session :=
  Ok {| textbox := textbox s; saved_input := saved_input s;
        chatbot := chatbot s; uuid_list := uuid_list s;
        output_textbox := convert_history_to_str (chatbot s);
        uuid_calls := uuid_calls s; clock_calls := clock_calls s;
        audit := audit s |}.

(** [lambda x: x] from [saved_input] to [textbox] *)
Definition step_restore_textbox (s : Session) : PyResult Session :=
  Ok {| textbox := saved_input s; saved_input := saved_input s;
        chatbot := chatbot s; uuid_list := uuid_list s;
        output_textbox := output_textbox s; uuid_calls := uuid_calls s;
        clock_calls := clock_calls s; audit := audit s |}.

(** [lambda: ([], '')] into [chatbot] and [saved_input] *)
Definition step_clear (s : Session) : PyResult Session :=
  Ok {| textbox := textbox s; saved_input := ""; chatbot := [];
        uuid_list := uuid_list s; output_textbox := output_textbox s;
        uuid_calls := uuid_calls s; clock_calls := clock_calls s;
        audit := audit s |}.

(** How a step is chained to the one before it: [.then] runs it when
    the previous step has finished, whether it raised or not;
    [.success] runs it only when the previous step finished without
    raising. A step that is not run never finishes, so nothing chained
    after it runs either. *)
Inductive trigger : Type := Then | Success.

Definition Step : Type := (trigger * (Session -> PyResult Session))%type.

Fixpoint run_chain (prev_ok : bool) (steps : list Step) (s : Session) : Session :=
  match steps with
  | [] => s
  | (mode, fn) :: rest =>
      match mode, prev_ok with
      | Success, false => s
      | _, _ =>
          match fn s with
          | Ok s' => run_chain true rest s'
          | Raise _ => run_chain false rest s
          end
      end
  end.

(** [textbox.submit(...)]; the event itself starts the first step. *)
Definition textbox_submit : list Step :=
  [ (Then, step_clear_and_save_textbox);
    (Then, step_check_input_token_length);
    (Success, step_display_input);
    (Then, step_assign_uuid);
    (Then, step_output_log);
    (Then, step_generate);
    (Then, step_assign_uuid);
    (Then, step_output_log);
    (Then, step_convert_history_to_str) ].

(** [submit_button.click(...)] *)
Definition submit_button_click : list Step :=
  [ (Then, step_clear_and_save_textbox);
    (Then, step_check_input_token_length);
    (Success, step_display_input);
    (Then, step_assign_uuid);
    (Then, step_output_log);
    (Success, step_generate);
    (Then, step_assign_uuid);
    (Then, step_output_log);
    (Then, step_convert_history_to_str) ].

(** [retry_button.click(...)] *)
Definition retry_button_click : list Step :=
  [ (Then, step_delete_prev_fn);
    (Then, step_check_input_token_length);
    (Success, step_display_input);
    (Then, step_assign_uuid);
    (Then, step_output_log);
    (Then, step_generate);
    (Then, step_assign_uuid);
    (Then, step_output_log);
    (Then, step_convert_history_to_str) ].

(** [undo_button.click(...)] *)
Definition undo_button_click : list Step :=
  [ (Then, step_delete_prev_fn);
    (Then, step_assign_uuid);
    (Then, step_restore_textbox);
    (Then, step_convert_history_to_str) ].

(** [clear_button.click(...)] *)
Definition clear_button_click : list Step :=
  [ (Then, step_clear);
    (Then, step_assign_uuid);
    (Then, step_convert_history_to_str) ].

End App.

(** * Definitions used to state the properties *)

(** A concrete identifier supply for the examples below. *)
Definition demo_uuid4 (k : nat) : string := "u" +:+ pretty k.

(** ** Completeness of a turn and of an identifier pair *)

(** The pair [u] has an empty assistant id exactly when the turn [t] has
    an empty assistant message. *)
Definition agree (t : turn) (u : uuid_pair) : Prop := u.2 = "" <-> t.2 = "".

#[global] Instance agree_dec t u : Decision (agree t u).
Proof. unfold agree. apply _. Defined.

(** The identifier list [l] has the length of the turn list [h] and agrees
    with it at every position. *)
Definition reconciled (h : list turn) (l : list uuid_pair) : Prop :=
  length l = length h /\
  forall i t u, h !! i = Some t -> l !! i = Some u -> agree t u.

(** The identifier list [l] agrees with the turn list [h] at every
    position the two lists share, except possibly at the last position
    when the lists are equally long. *)
Definition reconcilable (h : list turn) (l : list uuid_pair) : Prop :=
  forall i t u,
    h !! i = Some t -> l !! i = Some u ->
    (length h = length l -> S i < length h) -> agree t u.

(** What the scan makes of the last pair [u] against the last turn [t],
    with the count of identifiers drawn. *)
Definition repair (uuid4_str : nat -> string) (t : turn) (u : uuid_pair)
    (c : nat) : uuid_pair * nat :=
  if decide (t.2 ≠ "" ∧ u.2 = "") then ((u.1, uuid4_str c), S c)
  else if decide (t.2 = "" ∧ u.2 ≠ "") then ((u.1, ""), c)
  else (u, c).

(** The scan as the specification words it: the pair at each position
    where completeness disagrees is replaced in place. *)
Fixpoint positionwise_scan (uuid4_str : nat -> string)
    (h : list turn) (l : list uuid_pair) (c : nat) : list uuid_pair * nat :=
  match h, l with
  | t :: h', u :: l' =>
      let '(u', c') := repair uuid4_str t u c in
      let '(rest, c'') := positionwise_scan uuid4_str h' l' c' in
      (u' :: rest, c'')
  | _, _ => ([], c)
  end.

(** A streaming update sequence: one [assign_uuid] per partial response
    [r], on the turn list [hs ++ [(m, r)]] and the identifier list the
    previous call returned. The identifier lists returned are collected
    in order. *)
Fixpoint stream_reconciles (uuid4_str : nat -> string)
    (hs : list turn) (m : string) (responses : list string)
    (l : list uuid_pair) : M (list (list uuid_pair)) :=
  match responses with
  | [] => mret []
  | r :: rs =>
      l' ← assign_uuid uuid4_str (hs ++ [(m, r)]) l;
      ls ← stream_reconciles uuid4_str hs m rs l';
      mret (l' :: ls)
  end.

(** The partial responses the model streams for [message] after the turns
    [h], under the settings [cfg]. *)
Definition responses (pyfloat : Type)
    (run : string -> list turn -> string -> Z -> pyfloat -> pyfloat -> Z ->
           bool -> pyfloat -> list string)
    (cfg : Settings pyfloat) (message : string) (h : list turn) : list string :=
  run message h (system_prompt pyfloat cfg) (max_new_tokens pyfloat cfg)
    (temperature pyfloat cfg) (top_p pyfloat cfg) (top_k pyfloat cfg)
    (do_sample pyfloat cfg) (repetition_penalty pyfloat cfg).

(** Whitespace as [str.strip()] sees it among the one-byte characters:
    tab to carriage return, the four separators and the space. *)
Definition is_whitespace (a : Ascii.ascii) : bool :=
  let n := Ascii.nat_of_ascii a in
  ((9 <=? n) && (n <=? 13) || (28 <=? n) && (n <=? 32))%nat%bool.

Fixpoint lstrip (s : string) : string :=
  match s with
  | String a s' => if is_whitespace a then lstrip s' else s
  | EmptyString => EmptyString
  end.

Definition rstrip (s : string) : string := String.rev (lstrip (String.rev s)).

Definition strip (s : string) : string := rstrip (lstrip s).

(** The gate as the specification words it: blank after trimming. *)
Definition blank_after_trimming (message : string) : Prop := strip message = "".

(** * Properties *)

(** ** Evaluations *)

Example assign_uuid_ex_grow :
  assign_uuid demo_uuid4 [("a", "A"); ("b", "")] [] 0
  = Ok ([("u0", "u1"); ("u2", "")], 3).
Proof. reflexivity. Qed.

Example assign_uuid_ex_stream :
  assign_uuid demo_uuid4 [("a", "A"); ("b", "B")] [("x", "y"); ("z", "")] 7
  = Ok ([("x", "y"); ("z", "u7")], 8).
Proof. reflexivity. Qed.

Example assign_uuid_ex_interior :
  assign_uuid demo_uuid4 [("a", ""); ("b", "B")] [("u1", "a1"); ("u2", "a2")] 0
  = Ok ([("u1", "a1"); ("u1", "")], 0).
Proof. reflexivity. Qed.

(** ** The monad *)

Lemma bind_Ok {A B} (m : M A) (k : A -> M B) c a c' :
  m c = Ok (a, c') -> (m ≫= k) c = k a c'.
Proof. intros Hm. unfold mbind, M_bind, bind. by rewrite Hm. Qed.

Lemma for_each_app {A B} (body : A -> B -> M A) xs ys acc c acc' c' :
  for_each body acc xs c = Ok (acc', c') ->
  for_each body acc (xs ++ ys) c = for_each body acc' ys c'.
Proof.
  revert acc c. induction xs as [|x xs IH]; intros acc c; simpl.
  - unfold ret. by intros [= -> ->].
  - unfold mbind, M_bind, bind.
    destruct (body acc x c) as [[a1 c1]|e]; [apply IH | done].
Qed.

Lemma reconciled_Forall2 h l : reconciled h l <-> Forall2 agree h l.
Proof.
  unfold reconciled. rewrite Forall2_lookup. split.
  - intros [Hlen H] i.
    destruct (h !! i) as [t|] eqn:Ht, (l !! i) as [u|] eqn:Hu.
    + constructor. eauto.
    + apply lookup_lt_Some in Ht. apply lookup_ge_None in Hu. lia.
    + apply lookup_lt_Some in Hu. apply lookup_ge_None in Ht. lia.
    + constructor.
  - intros H. split.
    + apply eq_sym, (Forall2_length agree). by apply Forall2_lookup.
    + intros i t u Ht Hu. specialize (H i). rewrite Ht, Hu in H.
      by inversion H.
Qed.

Lemma reconciled_reconcilable h l : reconciled h l -> reconcilable h l.
Proof. intros [_ H] i t u Ht Hu _. eauto. Qed.

Section AssignUuid.

Variable uuid4_str : nat -> string.

#[local] Abbreviation assign_uuid := (assign_uuid uuid4_str).
#[local] Abbreviation grow_body := (grow_body uuid4_str).
#[local] Abbreviation scan_body := (scan_body uuid4_str).
#[local] Abbreviation repair := (repair uuid4_str).

(** *** The growing branch *)

Lemma grow_body_empty acc (x : turn) c :
  x.2 = "" -> grow_body acc x c = Ok (acc ++ [(uuid4_str c, "")], S c).
Proof. intros Hx. unfold grow_body. by rewrite decide_True. Qed.

Lemma grow_body_full acc (x : turn) c :
  x.2 <> "" ->
  grow_body acc x c = Ok (acc ++ [(uuid4_str c, uuid4_str (S c))], S (S c)).
Proof. intros Hx. unfold grow_body. by rewrite decide_False. Qed.

Lemma grow_total xs : forall acc c,
  exists news c',
    for_each grow_body acc xs c = Ok (acc ++ news, c') /\
    length news = length xs /\ c <= c'.
Proof.
  induction xs as [|x xs IH]; intros acc c; simpl.
  - exists [], c. by rewrite app_nil_r.
  - destruct (decide (x.2 = "")) as [Hx|Hx].
    + destruct (IH (acc ++ [(uuid4_str c, "")]) (S c)) as (news & c' & Hr & Hl & Hc).
      exists ((uuid4_str c, "") :: news), c'.
      split; [|split; [simpl; lia | lia]].
      erewrite bind_Ok by (by apply grow_body_empty).
      rewrite (cons_middle _ acc news), app_assoc. exact Hr.
    + destruct (IH (acc ++ [(uuid4_str c, uuid4_str (S c))]) (S (S c)))
        as (news & c' & Hr & Hl & Hc).
      exists ((uuid4_str c, uuid4_str (S c)) :: news), c'.
      split; [|split; [simpl; lia | lia]].
      erewrite bind_Ok by (by apply grow_body_full).
      rewrite (cons_middle _ acc news), app_assoc. exact Hr.
Qed.

Lemma grow_agree xs :
  (forall k, uuid4_str k <> "") ->
  forall acc c,
  exists news c',
    for_each grow_body acc xs c = Ok (acc ++ news, c') /\
    Forall2 agree xs news.
Proof.
  intros Hne. induction xs as [|x xs IH]; intros acc c; simpl.
  - exists [], c. rewrite app_nil_r. by split.
  - destruct (decide (x.2 = "")) as [Hx|Hx].
    + destruct (IH (acc ++ [(uuid4_str c, "")]) (S c)) as (news & c' & Hr & Hf).
      exists ((uuid4_str c, "") :: news), c'. split.
      * erewrite bind_Ok by (by apply grow_body_empty).
        rewrite (cons_middle _ acc news), app_assoc. exact Hr.
      * constructor; [by unfold agree | done].
    + destruct (IH (acc ++ [(uuid4_str c, uuid4_str (S c))]) (S (S c)))
        as (news & c' & Hr & Hf).
      exists ((uuid4_str c, uuid4_str (S c)) :: news), c'. split.
      * erewrite bind_Ok by (by apply grow_body_full).
        rewrite (cons_middle _ acc news), app_assoc. exact Hr.
      * constructor; [|done]. unfold agree; simpl. split; [|done].
        intros H. by apply Hne in H.
Qed.

(** *** The scanning branch *)

Lemma repair_agree t u c :
  (forall k, uuid4_str k <> "") -> agree t (repair t u c).1.
Proof.
  intros Hne. unfold repair, agree.
  destruct (decide (t.2 ≠ "" ∧ u.2 = "")) as [[Ht Hu]|H1]; simpl.
  { split; [intros H; by apply Hne in H | done]. }
  destruct (decide (t.2 = "" ∧ u.2 ≠ "")) as [[Ht Hu]|H2]; simpl; [done|].
  destruct (decide (t.2 = "")), (decide (u.2 = "")); tauto.
Qed.

Lemma repair_id t u c : agree t u -> repair t u c = (u, c).
Proof.
  unfold repair, agree. intros H.
  rewrite !decide_False by tauto. done.
Qed.

Lemma repair_user_id t u c : (repair t u c).1.1 = u.1.
Proof. unfold repair. by repeat case_decide. Qed.

Lemma scan_body_keep acc t u c :
  agree t u -> scan_body acc (t, u) c = Ok (acc, c).
Proof.
  unfold agree. intros H. unfold scan_body.
  rewrite !decide_False by tauto. done.
Qed.

Lemma scan_body_last ls t u c :
  scan_body (ls ++ [u]) (t, u) c
  = Ok (ls ++ [(repair t u c).1], (repair t u c).2).
Proof.
  assert (Hpop : pop (ls ++ [u]) = Ok ls).
  { unfold pop. rewrite removelast_last. by destruct ls. }
  unfold scan_body, repair.
  repeat case_decide; simpl; [| |done];
    unfold mbind, M_bind, bind, lift; by rewrite Hpop.
Qed.

Lemma scan_body_total acc p c :
  acc <> [] ->
  exists acc' c',
    scan_body acc p c = Ok (acc', c') /\ length acc' = length acc.
Proof.
  intros Hacc. destruct p as [t u].
  destruct (exists_last Hacc) as (ls & x & ->).
  assert (Hpop : pop (ls ++ [x]) = Ok ls).
  { unfold pop. rewrite removelast_last. by destruct ls. }
  unfold scan_body. repeat case_decide;
    unfold mbind, M_bind, bind, lift; rewrite ?Hpop; simpl;
    eexists _, _; (split; [reflexivity|]); by rewrite ?length_app.
Qed.

Lemma scan_total ps : forall acc c,
  acc <> [] ->
  exists acc' c',
    for_each scan_body acc ps c = Ok (acc', c') /\ length acc' = length acc.
Proof.
  induction ps as [|p ps IH]; intros acc c Hacc; simpl.
  - by exists acc, c.
  - destruct (scan_body_total acc p c Hacc) as (acc1 & c1 & H1 & Hl1).
    erewrite bind_Ok by exact H1.
    destruct (IH acc1 c1) as (acc' & c' & H' & Hl').
    { intros ->. destruct acc; [done | simpl in Hl1; lia]. }
    exists acc', c'. split; [done | lia].
Qed.

Lemma scan_agree hs ls :
  Forall2 agree hs ls ->
  forall acc c, for_each scan_body acc (zip hs ls) c = Ok (acc, c).
Proof.
  induction 1 as [|t u hs ls Htu _ IH]; intros acc c; simpl; [done|].
  erewrite bind_Ok by (by apply scan_body_keep). apply IH.
Qed.

(** *** [assign_uuid], branch by branch *)

Lemma assign_uuid_grow h l c :
  length l < length h ->
  assign_uuid h l c = for_each grow_body l (drop (length l) h) c.
Proof. intros H. unfold assign_uuid. by rewrite decide_True. Qed.

Lemma assign_uuid_shrink h l c :
  length h < length l -> assign_uuid h l c = Ok (take (length h) l, c).
Proof.
  intros H. unfold assign_uuid.
  rewrite decide_False by lia. by rewrite decide_True.
Qed.

Lemma assign_uuid_scan h l c :
  length h = length l ->
  assign_uuid h l c = for_each scan_body l (zip h l) c.
Proof. intros H. unfold assign_uuid. by rewrite !decide_False by lia. Qed.

(** The scan when only the last position can disagree. *)
Lemma assign_uuid_last hs ls t u c :
  Forall2 agree hs ls ->
  assign_uuid (hs ++ [t]) (ls ++ [u]) c
  = Ok (ls ++ [(repair t u c).1], (repair t u c).2).
Proof.
  intros Hf. pose proof (Forall2_length _ _ _ Hf) as Hlen.
  rewrite assign_uuid_scan by (rewrite !length_app; simpl; lia).
  rewrite zip_with_app by done.
  erewrite for_each_app by (by apply scan_agree).
  simpl. erewrite bind_Ok by apply scan_body_last. done.
Qed.

(** A reconciled list is a fixed point, and no identifier is drawn. *)
Lemma assign_uuid_fixed h l c :
  Forall2 agree h l -> assign_uuid h l c = Ok (l, c).
Proof.
  intros Hf. rewrite assign_uuid_scan by (by eapply Forall2_length).
  by apply scan_agree.
Qed.

Lemma assign_uuid_total h l c :
  exists l' c', assign_uuid h l c = Ok (l', c') /\ length l' = length h.
Proof.
  destruct (decide (length l < length h)) as [Hlt|Hge].
  - destruct (grow_total (drop (length l) h) l c) as (news & c' & Hr & Hl & _).
    exists (l ++ news), c'. split; [by rewrite assign_uuid_grow|].
    rewrite length_app, Hl, length_drop. lia.
  - destruct (decide (length h < length l)) as [Hlt|Hge'].
    + exists (take (length h) l), c. split; [by apply assign_uuid_shrink|].
      rewrite length_take. lia.
    + assert (Heq : length h = length l) by lia.
      rewrite assign_uuid_scan by done.
      destruct l as [|u l].
      * destruct h; [|done]. by exists [], c.
      * destruct (scan_total (zip h (u :: l)) (u :: l) c) as (l' & c' & Hr & Hl);
          [done|].
        exists l', c'. split; [done | lia].
Qed.

(** Under the precondition the result is reconciled. *)
Lemma assign_uuid_reconciles h l c :
  (forall k, uuid4_str k <> "") ->
  reconcilable h l ->
  exists l' c', assign_uuid h l c = Ok (l', c') /\ Forall2 agree h l'.
Proof.
  intros Hne Hrec.
  destruct (decide (length l < length h)) as [Hlt|Hge].
  - destruct (grow_agree (drop (length l) h) Hne l c) as (news & c' & Hr & Hf).
    exists (l ++ news), c'. split; [by rewrite assign_uuid_grow|].
    rewrite <- (take_drop (length l) h). apply Forall2_app; [|done].
    apply Forall2_same_length_lookup. split; [rewrite length_take; lia|].
    intros i t u Ht Hu. apply lookup_take_Some in Ht as [Ht Hi].
    apply (Hrec i t u Ht Hu). lia.
  - destruct (decide (length h < length l)) as [Hlt|Hge'].
    + exists (take (length h) l), c. split; [by apply assign_uuid_shrink|].
      apply Forall2_same_length_lookup. split; [rewrite length_take; lia|].
      intros i t u Ht Hu. apply lookup_take_Some in Hu as [Hu Hi].
      apply (Hrec i t u Ht Hu). lia.
    + assert (Heq : length h = length l) by lia.
      destruct (decide (h = [])) as [->|Hh].
      * destruct l; [|done]. exists [], c. by split.
      * destruct (exists_last Hh) as (hs & t & ->).
        assert (Hl : l <> []) by (intros ->; rewrite length_app in Heq; simpl in Heq; lia).
        destruct (exists_last Hl) as (ls & u & ->).
        rewrite !length_app in Heq. simpl in Heq.
        assert (Hf : Forall2 agree hs ls).
        { apply Forall2_same_length_lookup. split; [lia|].
          intros i t' u' Ht Hu.
          apply (Hrec i t' u').
          - by apply lookup_app_l_Some.
          - by apply lookup_app_l_Some.
          - intros _. apply lookup_lt_Some in Ht.
            rewrite length_app. simpl. lia. }
        eexists _, _. split; [by apply assign_uuid_last|].
        apply Forall2_app; [done|].
        constructor; [by apply repair_agree | constructor].
Qed.

End AssignUuid.

(** ** Claims about [assign_uuid] *)

Lemma demo_uuid4_nonempty k : demo_uuid4 k <> "".
Proof. unfold demo_uuid4. simpl. discriminate. Qed.

(** C1, as stated, fails: with the turn list [[("a", "")]] and two
    complete identifier pairs (the state a retry meets after the turn list
    was replaced by a single turn), the list is cut to its first pair,
    whose assistant id stays non-empty while the turn awaits its
    response. *)
Lemma assign_uuid_invariant_counterexample :
  assign_uuid demo_uuid4 [("a", "")] [("u1", "a1"); ("u2", "a2")] 0
  = Ok ([("u1", "a1")], 0)
  /\ ~ reconciled [("a", "")] [("u1", "a1")].
Proof.
  split; [reflexivity|].
  intros [_ H]. specialize (H 0 ("a", "") ("u1", "a1") eq_refl eq_refl).
  unfold agree in H. simpl in H. destruct H as [_ H].
  specialize (H eq_refl). discriminate.
Qed.

(** C1 (amended): [assign_uuid] always returns, and the identifier list
    it returns has the length of the turn list. When every identifier is
    a non-empty string and the given identifier list agrees with the turn
    list at every position the two share - except possibly the last
    position when they are equally long - then at every position of the
    result the assistant id is empty if and only if the turn's assistant
    message is empty. *)
Theorem assign_uuid_invariant uuid4_str (h : list turn) (l : list uuid_pair) c :
  exists l' c',
    assign_uuid uuid4_str h l c = Ok (l', c') /\
    length l' = length h /\
    ((forall k, uuid4_str k <> "") -> reconcilable h l ->
     forall i t u, h !! i = Some t -> l' !! i = Some u ->
                   (u.2 = "" <-> t.2 = "")).
Proof.
  destruct (assign_uuid_total uuid4_str h l c) as (l' & c' & Hr & Hlen).
  exists l', c'. split; [done|]. split; [done|].
  intros Hne Hrec.
  destruct (assign_uuid_reconciles uuid4_str h l c Hne Hrec) as (l2 & c2 & Hr2 & Hf).
  rewrite Hr in Hr2. simplify_eq.
  apply reconciled_Forall2 in Hf as [_ Hf]. exact Hf.
Qed.

Lemma assign_uuid_invariant_witness :
  (forall k, demo_uuid4 k <> "") /\
  reconcilable [("a", "A"); ("b", "")] [("u1", "a1")] /\
  exists l' c',
    assign_uuid demo_uuid4 [("a", "A"); ("b", "")] [("u1", "a1")] 0 = Ok (l', c') /\
    length l' = 2 /\
    forall i t u, [("a", "A"); ("b", "")] !! i = Some t -> l' !! i = Some u ->
                  (u.2 = "" <-> t.2 = "").
Proof.
  assert (Hrec : reconcilable [("a", "A"); ("b", "")] [("u1", "a1")]).
  { intros [|[|i]] t u Ht Hu _; simpl in *; simplify_eq.
    unfold agree; simpl. split; intros H; discriminate H. }
  split; [exact demo_uuid4_nonempty|]. split; [exact Hrec|].
  destruct (assign_uuid_invariant demo_uuid4 [("a", "A"); ("b", "")] [("u1", "a1")] 0)
    as (l' & c' & Hr & Hlen & Hagree).
  exists l', c'. split; [exact Hr|]. split; [exact Hlen|].
  exact (Hagree demo_uuid4_nonempty Hrec).
Defined.

(** C2: on [[("a", ""); ("b", "B")]] against two complete pairs the first
    position disagrees and the second agrees. The code leaves the first
    pair as it was and overwrites the second with the first pair's user id
    and an empty assistant id; replacing position by position gives
    [[("u1", ""); ("u2", "a2")]]. *)
Theorem assign_uuid_interior_flip :
  assign_uuid demo_uuid4 [("a", ""); ("b", "B")] [("u1", "a1"); ("u2", "a2")] 0
  = Ok ([("u1", "a1"); ("u1", "")], 0)
  /\ positionwise_scan demo_uuid4
       [("a", ""); ("b", "B")] [("u1", "a1"); ("u2", "a2")] 0
     = ([("u1", ""); ("u2", "a2")], 0).
Proof. split; reflexivity. Qed.

(** When the last position is the only one that can disagree, the code
    and the position-by-position scan coincide. *)
Lemma positionwise_scan_agree uuid4_str hs ls c :
  Forall2 agree hs ls -> positionwise_scan uuid4_str hs ls c = (ls, c).
Proof.
  induction 1 as [|t u hs ls Htu _ IH]; simpl; [done|].
  rewrite repair_id by done. by rewrite IH.
Qed.

Lemma positionwise_scan_app uuid4_str hs ls t u c :
  Forall2 agree hs ls ->
  positionwise_scan uuid4_str (hs ++ [t]) (ls ++ [u]) c
  = (ls ++ [(repair uuid4_str t u c).1], (repair uuid4_str t u c).2).
Proof.
  induction 1 as [|t' u' hs ls Htu _ IH]; simpl.
  - by destruct (repair uuid4_str t u c).
  - rewrite repair_id by done. by rewrite IH.
Qed.

Lemma assign_uuid_last_positionwise uuid4_str hs ls t u c :
  Forall2 agree hs ls ->
  assign_uuid uuid4_str (hs ++ [t]) (ls ++ [u]) c
  = Ok (positionwise_scan uuid4_str (hs ++ [t]) (ls ++ [u]) c).
Proof.
  intros Hf. rewrite positionwise_scan_app by done.
  by apply assign_uuid_last.
Qed.

(** C3, as stated, fails: after the cut of the counterexample to C1 the
    second call meets equally long lists, finds the first pair complete
    against an awaiting turn and empties its assistant id. *)
Lemma assign_uuid_idempotent_counterexample :
  assign_uuid demo_uuid4 [("a", "")] [("u1", "a1"); ("u2", "a2")] 0
  = Ok ([("u1", "a1")], 0)
  /\ assign_uuid demo_uuid4 [("a", "")] [("u1", "a1")] 0
     = Ok ([("u1", "")], 0)
  /\ [("u1", "")] <> [("u1", "a1")].
Proof. split; [reflexivity|]. split; [reflexivity | discriminate]. Qed.

(** C3 (amended): when every identifier is a non-empty string and the
    given identifier list agrees with the turn list at every position the
    two share - except possibly the last position when they are equally
    long - a second [assign_uuid] on the same turn list and the result of
    the first returns that result again, and draws no identifier. *)
Theorem assign_uuid_idempotent uuid4_str (h : list turn) (l : list uuid_pair) c :
  (forall k, uuid4_str k <> "") ->
  reconcilable h l ->
  exists l' c',
    assign_uuid uuid4_str h l c = Ok (l', c') /\
    assign_uuid uuid4_str h l' c' = Ok (l', c').
Proof.
  intros Hne Hrec.
  destruct (assign_uuid_reconciles uuid4_str h l c Hne Hrec) as (l' & c' & Hr & Hf).
  exists l', c'. split; [done|]. by apply assign_uuid_fixed.
Qed.

Lemma assign_uuid_idempotent_witness :
  (forall k, demo_uuid4 k <> "") /\
  reconcilable [("a", "A"); ("b", "B")] [("u1", "a1"); ("u2", "")] /\
  exists l' c',
    assign_uuid demo_uuid4 [("a", "A"); ("b", "B")] [("u1", "a1"); ("u2", "")] 0
    = Ok (l', c') /\
    assign_uuid demo_uuid4 [("a", "A"); ("b", "B")] l' c' = Ok (l', c').
Proof.
  assert (Hrec : reconcilable [("a", "A"); ("b", "B")] [("u1", "a1"); ("u2", "")]).
  { intros [|[|i]] t u Ht Hu Hlen; simpl in *; simplify_eq.
    - unfold agree; simpl. split; intros H; discriminate H.
    - specialize (Hlen eq_refl). lia. }
  split; [exact demo_uuid4_nonempty|]. split; [exact Hrec|].
  exact (assign_uuid_idempotent demo_uuid4 _ _ 0 demo_uuid4_nonempty Hrec).
Defined.

(** *** Streaming updates *)

Lemma stream_reconciles_steady uuid4_str hs m ls u a rs :
  Forall2 agree hs ls -> a <> "" -> Forall (fun r => r <> "") rs ->
  forall c,
    stream_reconciles uuid4_str hs m rs (ls ++ [(u, a)]) c
    = Ok (replicate (length rs) (ls ++ [(u, a)]), c).
Proof.
  intros Hf Ha. induction 1 as [|r rs Hr _ IH]; intros c; simpl; [done|].
  erewrite bind_Ok; cycle 1.
  { apply assign_uuid_fixed. apply Forall2_app; [done|].
    constructor; [|constructor]. unfold agree; simpl. tauto. }
  erewrite bind_Ok by apply IH. done.
Qed.

(** C7, as stated, fails: the identifier list a streaming sequence starts
    from need not be reconciled with the turn list. With the turn list
    [[("new", "")]] against two complete pairs, [assign_uuid] cuts the
    list to its first pair, which stays complete while the turn awaits
    its response. When the partial responses then arrive, every call
    finds the last pair complete already: no assistant id is drawn at the
    transition from empty to non-empty, and the turn keeps the assistant
    id of the turn that held the position before. *)
Lemma assign_uuid_streaming_counterexample :
  assign_uuid demo_uuid4 [("new", "")] [("u0", "u1"); ("u2", "u3")] 4
  = Ok ([("u0", "u1")], 4)
  /\ stream_reconciles demo_uuid4 [] "new" ["R"; "R-new"] [("u0", "u1")] 4
     = Ok ([[("u0", "u1")]; [("u0", "u1")]], 4).
Proof. split; reflexivity. Qed.

(** C7 (amended): start from a turn list whose last turn awaits its
    response and an identifier list reconciled with it (the same length,
    and an empty assistant id exactly where the assistant message is
    empty), and let the last assistant message run through non-empty
    partial responses, with one [assign_uuid] per response. The first
    call puts one fresh assistant id on the last pair; every later call
    returns that same list, so the one identifier drawn is the only one,
    and the user ids of all positions stay those of the starting list. *)
Theorem assign_uuid_streaming uuid4_str
    (hs : list turn) (m : string) (l0 : list uuid_pair) c (r : string)
    (rs : list string) :
  (forall k, uuid4_str k <> "") ->
  reconciled (hs ++ [(m, "")]) l0 ->
  r <> "" -> Forall (fun r' => r' <> "") rs ->
  exists ls u,
    l0 = ls ++ [(u, "")] /\
    stream_reconciles uuid4_str hs m (r :: rs) l0 c
    = Ok (replicate (S (length rs)) (ls ++ [(u, uuid4_str c)]), S c) /\
    (ls ++ [(u, uuid4_str c)]).*1 = l0.*1.
Proof.
  intros Hne Hrec Hr Hrs.
  apply reconciled_Forall2 in Hrec.
  apply Forall2_app_inv_l in Hrec as (ls & k & Hf & Hk & ->).
  inversion Hk as [|t [u a] ? k' Hagree Hnil]; subst.
  inversion Hnil; subst.
  unfold agree in Hagree. simpl in Hagree.
  assert (a = "") as -> by tauto.
  exists ls, u. split; [done|]. split.
  - cbn [stream_reconciles].
    erewrite bind_Ok; cycle 1.
    { rewrite assign_uuid_last by done. unfold repair. simpl.
      rewrite decide_True by done. reflexivity. }
    simpl.
    erewrite bind_Ok by (by apply stream_reconciles_steady).
    done.
  - by rewrite !fmap_app.
Qed.

Lemma assign_uuid_streaming_witness :
  exists ls u,
    [("u1", "a1"); ("u2", "")] = ls ++ [(u, "")] /\
    stream_reconciles demo_uuid4 [("a", "A")] "b" ["B"; "Bc"; "Bcd"]
      [("u1", "a1"); ("u2", "")] 5
    = Ok (replicate 3 (ls ++ [(u, demo_uuid4 5)]), 6) /\
    (ls ++ [(u, demo_uuid4 5)]).*1 = [("u1", "a1"); ("u2", "")].*1.
Proof.
  apply (assign_uuid_streaming demo_uuid4 [("a", "A")] "b"
           [("u1", "a1"); ("u2", "")] 5 "B" ["Bc"; "Bcd"]).
  - exact demo_uuid4_nonempty.
  - split; [reflexivity|].
    intros [|[|i]] t u Ht Hu; simpl in *; simplify_eq;
      unfold agree; simpl; split; intros H; done.
  - discriminate.
  - repeat constructor; discriminate.
Defined.

(** *** Shrinking turn lists *)

(** C9: when the turn list is shorter than the identifier list,
    [assign_uuid] returns the first [length h] pairs of the identifier
    list, each as it was, and draws no identifier. On the empty turn list
    it returns the empty list whatever the identifier list is, and so the
    chain behind the clear button ends with both lists empty. *)
Theorem assign_uuid_truncates uuid4_str :
  (forall (h : list turn) (l : list uuid_pair) c,
     length h < length l ->
     assign_uuid uuid4_str h l c = Ok (take (length h) l, c) /\
     forall i, i < length h -> take (length h) l !! i = l !! i) /\
  (forall (l : list uuid_pair) c, assign_uuid uuid4_str [] l c = Ok ([], c)) /\
  (forall s,
     let s' := run_chain true (clear_button_click uuid4_str) s in
     chatbot s' = [] /\ uuid_list s' = []).
Proof.
  split; [|split].
  - intros h l c Hlt. split; [by apply assign_uuid_shrink|].
    intros i Hi. by apply lookup_take_lt.
  - intros [|u l] c; [reflexivity|].
    rewrite assign_uuid_shrink by (simpl; lia). done.
  - intros s. simpl.
    unfold step_assign_uuid. simpl.
    assert (Hnil : assign_uuid uuid4_str [] (uuid_list s) (uuid_calls s)
                   = Ok ([], uuid_calls s)).
    { destruct (uuid_list s) as [|u l]; [reflexivity|].
      rewrite assign_uuid_shrink by (simpl; lia). done. }
    rewrite Hnil. simpl. done.
Qed.

Lemma assign_uuid_truncates_witness :
  assign_uuid demo_uuid4 [("a", "A")] [("u1", "a1"); ("u2", "a2")] 4
  = Ok ([("u1", "a1")], 4).
Proof.
  destruct (assign_uuid_truncates demo_uuid4) as [H _].
  destruct (H [("a", "A")] [("u1", "a1"); ("u2", "a2")] 4) as [Hr _].
  - simpl. lia.
  - exact Hr.
Defined.

(** ** Claims about the input gate *)

Lemma too_long_msg_not_empty_msg n : too_long_msg n <> empty_msg.
Proof. unfold too_long_msg, empty_msg. simpl. intros H. discriminate H. Qed.

Lemma length_nonpos_empty (s : string) : String.length s <= 0 <-> s = "".
Proof. destruct s; simpl; split; intros H; (done || lia). Qed.

(** C4, as stated, fails: a message of one space is blank after trimming
    and passes the gate, which looks at the length of the untrimmed
    message. *)
Lemma check_input_token_length_counterexample :
  blank_after_trimming " "
  /\ check_input_token_length (fun _ _ _ => 0%Z) " " [] "" = Ok ().
Proof. split; reflexivity. Qed.

(** C4 (amended): the gate raises the empty-input error exactly when the
    token count is within the budget and the message is the empty string,
    with no trimming; every non-empty message, one of whitespace only
    included, passes the emptiness check, so that the gate returns
    normally whenever the token count is within the budget. *)
Theorem check_input_token_length_empty
    (get_input_token_length : string -> list turn -> string -> Z)
    (message : string) (chat_history : list turn) (system_prompt : string) :
  (check_input_token_length get_input_token_length message chat_history
     system_prompt = Raise (GrError empty_msg)
   <-> (get_input_token_length message chat_history system_prompt
        <= MAX_INPUT_TOKEN_LENGTH)%Z /\ message = "")
  /\ (message <> "" ->
      check_input_token_length get_input_token_length message chat_history
        system_prompt <> Raise (GrError empty_msg))
  /\ (message <> "" ->
      (get_input_token_length message chat_history system_prompt
       <= MAX_INPUT_TOKEN_LENGTH)%Z ->
      check_input_token_length get_input_token_length message chat_history
        system_prompt = Ok ()).
Proof.
  unfold check_input_token_length.
  destruct (decide (get_input_token_length message chat_history system_prompt
                    > MAX_INPUT_TOKEN_LENGTH)%Z) as [Hgt|Hle].
  - split; [split|split].
    + intros H. discriminate H.
    + intros [H _]. lia.
    + intros _ H. discriminate H.
    + intros _ H. lia.
  - destruct (decide (String.length message <= 0)) as [Hlen|Hlen].
    + apply length_nonpos_empty in Hlen. split; [split|split].
      * intros _. split; [lia | done].
      * done.
      * done.
      * done.
    + assert (Hm : message <> "") by (intros ->; apply Hlen; simpl; lia).
      split; [split|split].
      * intros H. discriminate H.
      * intros [_ ?]. done.
      * intros _ H. discriminate H.
      * done.
Qed.

Lemma check_input_token_length_empty_witness :
  check_input_token_length (fun _ _ _ => 0%Z) "   " [] "" = Ok ().
Proof.
  destruct (check_input_token_length_empty (fun _ _ _ => 0%Z) "   " [] "")
    as (_ & _ & H).
  apply H; [discriminate | unfold MAX_INPUT_TOKEN_LENGTH; lia].
Defined.

(** What the gate raises, in full. *)
Lemma check_input_token_length_raises tok message h sp :
  (exists e, check_input_token_length tok message h sp = Raise e)
  <-> (tok message h sp > MAX_INPUT_TOKEN_LENGTH)%Z \/ message = "".
Proof.
  unfold check_input_token_length.
  destruct (decide (tok message h sp > MAX_INPUT_TOKEN_LENGTH)%Z) as [Hgt|Hle].
  { split; [by left | eauto]. }
  destruct (decide (String.length message <= 0)) as [Hlen|Hlen].
  - apply length_nonpos_empty in Hlen. split; [by right | eauto].
  - split; [by intros [e ?]|].
    intros [?| ->]; [done|]. exfalso. apply Hlen. simpl. lia.
Qed.

(** ** Claims about the event chains *)

Section Chains.

Variable uuid4_str : nat -> string.
Variable get_input_token_length : string -> list turn -> string -> Z.
Variable pyfloat : Type.
Variable run :
  string -> list turn -> string -> Z -> pyfloat -> pyfloat -> Z -> bool ->
  pyfloat -> list string.
Variable strftime_now : nat -> string.
Variable cfg : Settings pyfloat.

#[local] Abbreviation check := (check_input_token_length get_input_token_length).
#[local] Abbreviation gen := (generate pyfloat run).

(** Once the gate has raised, no later step of a submit chain runs: the
    chain ends in the state its first step left. *)
Lemma submit_chain_aborts (s s0 : Session) e (first : Step) (rest : list Step) :
  first.2 s = Ok s0 ->
  check (saved_input s0) (chatbot s0) (system_prompt pyfloat cfg) = Raise e ->
  run_chain true
    (first ::
     (Then, step_check_input_token_length get_input_token_length pyfloat cfg) ::
     (Success, step_display_input) :: rest) s = s0.
Proof.
  intros Hfirst Hraise. destruct first as [mode fn]. simpl in *.
  destruct mode; rewrite Hfirst;
    unfold step_check_input_token_length; by rewrite Hraise.
Qed.

(** C5: when the message in the text box is over the token budget
    together with the history, or is empty, the gate raises and both submit
    chains (the text box's and the button's) end with the turn list and
    the identifier list they started with; no identifier is drawn and no
    audit record is built. *)
Theorem submit_validation_aborts (s : Session) :
  (get_input_token_length (textbox s) (chatbot s) (system_prompt pyfloat cfg)
   > MAX_INPUT_TOKEN_LENGTH)%Z \/ textbox s = "" ->
  (exists e, check (textbox s) (chatbot s) (system_prompt pyfloat cfg) = Raise e) /\
  forall chain,
    chain = textbox_submit uuid4_str get_input_token_length pyfloat run
              strftime_now cfg \/
    chain = submit_button_click uuid4_str get_input_token_length pyfloat run
              strftime_now cfg ->
    chatbot (run_chain true chain s) = chatbot s /\
    uuid_list (run_chain true chain s) = uuid_list s /\
    uuid_calls (run_chain true chain s) = uuid_calls s /\
    audit (run_chain true chain s) = audit s.
Proof.
  intros Hbad.
  apply check_input_token_length_raises in Hbad as [e He].
  split; [by exists e|].
  intros chain [-> | ->];
    unfold textbox_submit, submit_button_click;
    (erewrite submit_chain_aborts; [| reflexivity | exact He]); done.
Qed.

(** ** Claims about [generate] *)

Lemma generate_yields (message : string) (h : list turn) (a : string)
    sp mnt temp tp tk ds rp :
  (mnt <= MAX_MAX_NEW_TOKENS)%Z ->
  gen message (h ++ [(message, a)]) sp mnt temp tp tk ds rp
  = Ok ((fun response => h ++ [(message, response)])
          <$> run message h sp mnt temp tp tk ds rp).
Proof.
  intros Hle. unfold generate. rewrite decide_False by lia.
  rewrite length_app. simpl.
  replace (length h + 1 - 1) with (length h) by lia.
  by rewrite take_app_length.
Qed.

(** C8: on the turn list that [display_input] left for [message] - any
    list whose last turn carries [message] - and within the cap on new
    tokens, [generate] yields one turn list per partial response of the
    stream, in order. Each has the length of the input, the same turns
    at every position before the last, and as last turn [message] with
    exactly that partial response as assistant message, whatever the
    assistant message was before. *)
Theorem generate_replaces_last (message : string) (h : list turn) (a : string)
    sp mnt temp tp tk ds rp :
  (mnt <= MAX_MAX_NEW_TOKENS)%Z ->
  let input := h ++ [(message, a)] in
  let stream := run message h sp mnt temp tp tk ds rp in
  exists ys,
    gen message input sp mnt temp tp tk ds rp = Ok ys /\
    length ys = length stream /\
    forall k response,
      stream !! k = Some response ->
      exists y,
        ys !! k = Some y /\
        length y = length input /\
        (forall i, i < length input - 1 -> y !! i = input !! i) /\
        last y = Some (message, response).
Proof.
  intros Hle input stream.
  eexists. split; [by apply generate_yields|].
  split; [by rewrite length_fmap|].
  intros k response Hk.
  exists (h ++ [(message, response)]). split; [|split; [|split]].
  - rewrite list_lookup_fmap. fold stream. by rewrite Hk.
  - unfold input. by rewrite !length_app.
  - unfold input. rewrite length_app. simpl. intros i Hi.
    rewrite !lookup_app_l by lia. done.
  - by rewrite last_snoc.
Qed.

(** In the chains [generate] runs on what [display_input] returned for
    the saved message: the two steps between them write neither the turn
    list nor the saved message. *)
Lemma display_input_shape (message : string) (history : list turn) :
  display_input message history = history ++ [(message, "")].
Proof. reflexivity. Qed.

Lemma step_assign_uuid_keeps_turns (s s' : Session) :
  step_assign_uuid uuid4_str s = Ok s' ->
  chatbot s' = chatbot s /\ saved_input s' = saved_input s.
Proof.
  unfold step_assign_uuid.
  destruct (assign_uuid uuid4_str (chatbot s) (uuid_list s) (uuid_calls s))
    as [[l c]|e]; simpl; [|discriminate].
  intros H. injection H as <-. done.
Qed.

Lemma step_output_log_keeps_turns (s s' : Session) :
  step_output_log strftime_now s = Ok s' ->
  chatbot s' = chatbot s /\ saved_input s' = saved_input s.
Proof.
  unfold step_output_log.
  destruct (output_log _ (chatbot s) (uuid_list s)) as [d|e]; simpl;
    [|discriminate].
  intros H. injection H as <-. done.
Qed.

End Chains.

Lemma submit_validation_aborts_witness :
  let s := {| textbox := ""; saved_input := "x"; chatbot := [("a", "A")];
              uuid_list := [("u1", "a1")]; output_textbox := "";
              uuid_calls := 2; clock_calls := 2; audit := [] |} in
  let cfg := {| system_prompt := "sys"; max_new_tokens := 512%Z;
                temperature := (); top_p := (); top_k := 50%Z;
                do_sample := false; repetition_penalty := () |} in
  let chain :=
    textbox_submit demo_uuid4 (fun _ _ _ => 0%Z) ()
      (fun _ _ _ _ _ _ _ _ _ => ["B"]) (fun _ => "now") cfg in
  chatbot (run_chain true chain s) = [("a", "A")] /\
  uuid_list (run_chain true chain s) = [("u1", "a1")].
Proof.
  intros s cfg chain.
  destruct (submit_validation_aborts demo_uuid4 (fun _ _ _ => 0%Z) ()
              (fun _ _ _ _ _ _ _ _ _ => ["B"]) (fun _ => "now") cfg s)
    as [_ H].
  - right. reflexivity.
  - destruct (H chain) as (H1 & H2 & _); [left; reflexivity|].
    split; [exact H1 | exact H2].
Defined.

Lemma generate_replaces_last_witness :
  exists ys,
    generate () (fun _ _ _ _ _ _ _ _ _ => ["B"; "Bc"]) "b"
      [("a", "A"); ("b", "old")] "sys" 512%Z () () 50%Z false ()
    = Ok ys /\
    ys = [[("a", "A"); ("b", "B")]; [("a", "A"); ("b", "Bc")]].
Proof.
  destruct (generate_replaces_last () (fun _ _ _ _ _ _ _ _ _ => ["B"; "Bc"])
              "b" [("a", "A")] "old" "sys" 512%Z () () 50%Z false ())
    as (ys & Hys & _).
  - unfold MAX_MAX_NEW_TOKENS. lia.
  - exists ys. split; [exact Hys|].
    simpl in Hys. injection Hys as <-. reflexivity.
Defined.

(** ** Claims about [output_log] *)

Lemma py_index_nil {A} (i : Z) : py_index (@nil A) i = Raise IndexError.
Proof.
  unfold py_index. rewrite lookup_nil. by destruct (_ || _)%bool.
Qed.

Lemma py_index_nonneg {A} (l : list A) (i : nat) x :
  l !! i = Some x -> py_index l (Z.of_nat i) = Ok x.
Proof.
  intros Hx. pose proof (lookup_lt_Some _ _ _ Hx) as Hlt.
  assert (E1 : (Z.of_nat i <? 0)%Z = false) by (apply Z.ltb_ge; lia).
  assert (E2 : (Z.of_nat (length l) <=? Z.of_nat i)%Z = false)
    by (apply Z.leb_gt; lia).
  unfold py_index. cbv zeta. rewrite !E1, E2. simpl.
  by rewrite Nat2Z.id, Hx.
Qed.

Lemma py_index_neg {A} (l : list A) (k : nat) x :
  0 < k <= length l -> l !! (length l - k) = Some x ->
  py_index l (- Z.of_nat k) = Ok x.
Proof.
  intros Hk Hx.
  assert (E1 : (- Z.of_nat k <? 0)%Z = true) by (apply Z.ltb_lt; lia).
  assert (E2 : (- Z.of_nat k + Z.of_nat (length l) <? 0)%Z = false)
    by (apply Z.ltb_ge; lia).
  assert (E3 : (Z.of_nat (length l) <=? - Z.of_nat k + Z.of_nat (length l))%Z
               = false) by (apply Z.leb_gt; lia).
  unfold py_index. cbv zeta. rewrite E1, E2, E3. simpl.
  replace (Z.to_nat (- Z.of_nat k + Z.of_nat (length l))) with (length l - k)
    by lia.
  by rewrite Hx.
Qed.

Lemma py_index_last {A} (l : list A) x :
  last l = Some x -> py_index l (-1) = Ok x.
Proof.
  intros Hx. rewrite last_lookup in Hx.
  assert (l <> []) by (intros ->; done).
  assert (0 < length l) by (destruct l; simpl; [done | lia]).
  apply (py_index_neg l 1); [lia|].
  by replace (length l - 1) with (pred (length l)) by lia.
Qed.

(** On a non-empty history and an identifier list of the same length
    every index [output_log] uses is in range. *)
Lemma output_log_total (now : string) (history : list turn)
    (uuid_list : list uuid_pair) :
  history <> [] -> length uuid_list = length history ->
  exists d, output_log now history uuid_list = Ok d.
Proof.
  intros Hh Hlen.
  assert (Hpos : 0 < length history) by (destruct history; simpl; [done | lia]).
  destruct (lookup_lt_is_Some_2 uuid_list 0) as [u0 H0]; [lia|].
  destruct (lookup_lt_is_Some_2 history (length history - 1)) as [t Ht]; [lia|].
  destruct (lookup_lt_is_Some_2 uuid_list (length uuid_list - 1)) as [u Hu]; [lia|].
  assert (E0 : py_index uuid_list 0 = Ok u0)
    by (by apply (py_index_nonneg uuid_list 0)).
  assert (E1 : py_index history (-1) = Ok t)
    by (apply (py_index_neg history 1); [lia | done]).
  assert (E2 : py_index uuid_list (-1) = Ok u)
    by (apply (py_index_neg uuid_list 1); [lia | done]).
  unfold output_log. rewrite E0, E1, E2. cbn [mbind PyResult_bind].
  destruct (decide (u.2 = "")); [|by eexists].
  destruct (decide (2 <= length history)); [|by eexists].
  destruct (lookup_lt_is_Some_2 uuid_list (length uuid_list - 2)) as [p Hp]; [lia|].
  assert (E3 : py_index uuid_list (-2) = Ok p)
    by (apply (py_index_neg uuid_list 2); [lia | done]).
  rewrite E3. by eexists.
Qed.

(** C6: for a non-empty turn list and an identifier list of the same
    length, [output_log] builds a record whose tree id is the user id of
    the first pair. Its role is user exactly when the last pair has an
    empty assistant id; then the record id is that pair's user id, the
    message is the last turn's user message, and the parent id is the
    assistant id of the pair before it, or the pair's own user id when
    there is one turn only. Otherwise the role is assistant, the record id
    is the last pair's assistant id, the message is the last turn's
    assistant message and the parent id is the same pair's user id. *)
Theorem output_log_record (now : string) (history : list turn)
    (uuid_list : list uuid_pair) :
  history <> [] ->
  length uuid_list = length history ->
  exists d first_uuids last_messages last_uuids,
    output_log now history uuid_list = Ok d /\
    head uuid_list = Some first_uuids /\
    last history = Some last_messages /\
    last uuid_list = Some last_uuids /\
    tree_uuid d = first_uuids.1 /\
    created_at d = now /\
    (role d = "user" <-> last_uuids.2 = "") /\
    (last_uuids.2 = "" ->
     uuid d = last_uuids.1 /\
     message d = last_messages.1 /\
     (length history = 1 -> parent_uuid d = last_uuids.1) /\
     (2 <= length history ->
      exists prev_uuids,
        uuid_list !! (length uuid_list - 2) = Some prev_uuids /\
        parent_uuid d = prev_uuids.2)) /\
    (last_uuids.2 <> "" ->
     role d = "assistant" /\
     uuid d = last_uuids.2 /\
     message d = last_messages.2 /\
     parent_uuid d = last_uuids.1).
Proof.
  intros Hh Hlen.
  assert (Hl : uuid_list <> []) by (intros ->; by destruct history).
  destruct uuid_list as [|first_uuids rest] eqn:El; [done|].
  rewrite <- El in *.
  destruct (exists_last Hh) as (hs & last_messages & Eh).
  destruct (exists_last Hl) as (ls & last_uuids & Els).
  assert (Hfirst : py_index uuid_list 0 = Ok first_uuids).
  { apply (py_index_nonneg uuid_list 0). by rewrite El. }
  assert (Hlm : py_index history (-1) = Ok last_messages).
  { apply py_index_last. rewrite Eh. apply last_snoc. }
  assert (Hlu : py_index uuid_list (-1) = Ok last_uuids).
  { apply py_index_last. rewrite Els. apply last_snoc. }
  unfold output_log. rewrite Hfirst, Hlm, Hlu. simpl.
  destruct (decide (last_uuids.2 = "")) as [Hempty|Hfull].
  - destruct (decide (2 <= length history)) as [H2|H1].
    + assert (Hprev : is_Some (uuid_list !! (length uuid_list - 2))).
      { apply lookup_lt_is_Some. lia. }
      destruct Hprev as [prev_uuids Hprev].
      assert (Hp : py_index uuid_list (-2) = Ok prev_uuids)
        by (apply (py_index_neg uuid_list 2); [lia | done]).
      rewrite Hp. simpl.
      eexists _, first_uuids, last_messages, last_uuids.
      split; [reflexivity|]. simpl.
      split; [by rewrite El|].
      split; [rewrite Eh; apply last_snoc|].
      split; [rewrite Els; apply last_snoc|].
      split; [done|]. split; [done|]. split; [done|].
      split; [|done]. intros _. split; [done|]. split; [done|].
      split; [lia|]. intros _. by exists prev_uuids.
    + simpl.
      eexists _, first_uuids, last_messages, last_uuids.
      split; [reflexivity|]. simpl.
      split; [by rewrite El|].
      split; [rewrite Eh; apply last_snoc|].
      split; [rewrite Els; apply last_snoc|].
      split; [done|]. split; [done|]. split; [done|].
      split; [|done]. intros _. split; [done|]. split; [done|].
      split; [done | lia].
  - eexists _, first_uuids, last_messages, last_uuids.
    split; [reflexivity|]. simpl.
    split; [by rewrite El|].
    split; [rewrite Eh; apply last_snoc|].
    split; [rewrite Els; apply last_snoc|].
    split; [done|]. split; [done|].
    split; [split; [intros H; discriminate H | done]|].
    split; [done|]. done.
Qed.

Lemma output_log_record_witness :
  exists d,
    output_log "now" [("a", "A"); ("b", "")] [("u1", "a1"); ("u2", "")] = Ok d /\
    d = {| created_at := "now"; tree_uuid := "u1"; parent_uuid := "a1";
           uuid := "u2"; role := "user"; message := "b" |}.
Proof.
  destruct (output_log_record "now" [("a", "A"); ("b", "")]
              [("u1", "a1"); ("u2", "")])
    as (d & _ & _ & _ & Hd & _); [discriminate | reflexivity |].
  exists d. split; [exact Hd|].
  simpl in Hd. injection Hd as <-. reflexivity.
Defined.

(** C10: when the history or the identifier list is empty, [output_log]
    raises [IndexError] and builds no record; when both are non-empty and
    equally long it builds a record, so no [IndexError] is raised. *)
Theorem output_log_index_safety (now : string) (history : list turn)
    (uuid_list : list uuid_pair) :
  (history = [] \/ uuid_list = [] ->
   output_log now history uuid_list = Raise IndexError) /\
  (history <> [] -> uuid_list <> [] -> length history = length uuid_list ->
   exists d, output_log now history uuid_list = Ok d).
Proof.
  split.
  - intros Hnil. unfold output_log.
    destruct uuid_list as [|first_uuids rest].
    + by rewrite py_index_nil.
    + destruct Hnil as [-> | ?]; [|done].
      assert (Hf : py_index (first_uuids :: rest) 0 = Ok first_uuids)
        by (by apply (py_index_nonneg _ 0)).
      rewrite Hf. cbn [mbind PyResult_bind].
      by rewrite py_index_nil.
  - intros Hh _ Hlen.
    exact (output_log_total now history uuid_list Hh (eq_sym Hlen)).
Qed.

Lemma output_log_index_safety_witness :
  output_log "now" [] [("u1", "")] = Raise IndexError /\
  exists d, output_log "now" [("a", "")] [("u1", "")] = Ok d.
Proof.
  split.
  - destruct (output_log_index_safety "now" [] [("u1", "")]) as [H _].
    apply H. left. reflexivity.
  - destruct (output_log_index_safety "now" [("a", "")] [("u1", "")]) as [_ H].
    apply H; [discriminate | discriminate | reflexivity].
Defined.

(** * Further properties of the handlers *)

(** ** [display_input] and [delete_prev_fn] *)

Lemma delete_prev_fn_snoc (hs : list turn) (m a : string) :
  delete_prev_fn (hs ++ [(m, a)]) = (hs, m).
Proof. unfold delete_prev_fn. by rewrite last_snoc, removelast_last. Qed.

(** X1: popping right after a message was displayed gives back the history
    as it was, and the message as the draft. *)
Theorem delete_prev_fn_display_input (message : string) (history : list turn) :
  delete_prev_fn (display_input message history) = (history, message).
Proof.
  unfold delete_prev_fn, display_input.
  by rewrite last_snoc, removelast_last.
Qed.

(** X2: [delete_prev_fn] never raises. On an empty history it returns the
    empty history and the empty draft; otherwise the history loses exactly
    its last turn, whose user message is the draft, and displaying the
    draft again restores the history with the last assistant message
    emptied. *)
Theorem delete_prev_fn_retry (history : list turn) :
  (history = [] -> delete_prev_fn history = ([], "")) /\
  (forall hs m a,
     history = hs ++ [(m, a)] ->
     delete_prev_fn history = (hs, m) /\
     display_input (delete_prev_fn history).2 (delete_prev_fn history).1
     = hs ++ [(m, "")]) /\
  length (delete_prev_fn history).1 = length history - 1.
Proof.
  split; [by intros ->|]. split.
  - intros hs m a ->.
    by rewrite delete_prev_fn_snoc.
  - destruct (decide (history = [])) as [->|Hne]; [done|].
    destruct (exists_last Hne) as (hs & [m a] & ->).
    unfold delete_prev_fn. rewrite last_snoc, removelast_last. simpl.
    rewrite length_app. simpl. lia.
Qed.

Lemma delete_prev_fn_retry_witness :
  delete_prev_fn [("a", "A"); ("b", "B")] = ([("a", "A")], "b").
Proof.
  destruct (delete_prev_fn_retry [("a", "A"); ("b", "B")]) as (_ & H & _).
  destruct (H [("a", "A")] "b" "B") as [E _]; [reflexivity | exact E].
Defined.

(** ** [convert_history_to_str] *)

Lemma string_app_assoc (s1 s2 s3 : string) :
  (s1 +:+ s2) +:+ s3 = s1 +:+ (s2 +:+ s3).
Proof.
  induction s1 as [|a s1 IH]; [done|].
  change (String a ((s1 +:+ s2) +:+ s3) = String a (s1 +:+ (s2 +:+ s3))).
  by rewrite IH.
Qed.

Lemma join_snoc (sep : string) (l : list string) (x : string) :
  l <> [] -> join sep (l ++ [x]) = join sep l +:+ sep +:+ x.
Proof.
  induction l as [|y l IH]; [done|]. intros _.
  destruct l as [|z l]; [done|].
  change (join sep ((y :: z :: l) ++ [x]))
    with (y +:+ sep +:+ join sep ((z :: l) ++ [x])).
  rewrite IH by done.
  change (join sep (y :: z :: l)) with (y +:+ sep +:+ join sep (z :: l)).
  by rewrite !string_app_assoc.
Qed.

(** The lines of the transcript, two per turn. *)
Lemma transcript_lines (history : list turn) (acc : list string) :
  foldl (fun res '(user_utt, sys_utt) =>
           res ++ ["😃: " +:+ user_utt] ++ ["🤖: " +:+ sys_utt])
        acc history
  = acc ++ flat_map (fun t => ["😃: " +:+ t.1; "🤖: " +:+ t.2]) history.
Proof.
  revert acc. induction history as [|[u a] h IH]; intros acc; simpl.
  - by rewrite app_nil_r.
  - rewrite IH. by rewrite <- !app_assoc.
Qed.

(** X3: the transcript has two lines per turn, a user line and an
    assistant line, joined by line breaks; it is empty for the empty
    history, and a further turn adds its two lines at the end of the
    transcript of the turns before it. *)
Theorem convert_history_to_str_snoc (history : list turn) (u a : string) :
  convert_history_to_str [] = "" /\
  convert_history_to_str [(u, a)] = "😃: " +:+ u +:+ "<br>" +:+ "🤖: " +:+ a /\
  (history <> [] ->
   convert_history_to_str (history ++ [(u, a)])
   = convert_history_to_str history +:+ "<br>" +:+ "😃: " +:+ u
       +:+ "<br>" +:+ "🤖: " +:+ a).
Proof.
  split; [done|]. split; [done|]. intros Hne.
  unfold convert_history_to_str. rewrite !transcript_lines. simpl.
  rewrite flat_map_app. simpl.
  set (ls := flat_map (fun t => ["😃: " +:+ t.1; "🤖: " +:+ t.2]) history).
  assert (Hls : ls <> []).
  { unfold ls. destruct history as [|[u0 a0] h]; [done | discriminate]. }
  change (ls ++ ["😃: " +:+ u; "🤖: " +:+ a])
    with (ls ++ ["😃: " +:+ u] ++ ["🤖: " +:+ a]).
  rewrite app_assoc.
  rewrite join_snoc by (intros H; by apply app_eq_nil in H as [? _]).
  rewrite join_snoc by done.
  by rewrite !string_app_assoc.
Qed.

Lemma convert_history_to_str_snoc_witness :
  convert_history_to_str ([("a", "A")] ++ [("b", "B")])
  = convert_history_to_str [("a", "A")] +:+ "<br>" +:+ "😃: " +:+ "b"
      +:+ "<br>" +:+ "🤖: " +:+ "B".
Proof.
  destruct (convert_history_to_str_snoc [("a", "A")] "b" "B") as (_ & _ & H).
  apply H. discriminate.
Defined.

(** ** [generate] on any input *)

(** X4: [generate] raises [ValueError] exactly when the number of new
    tokens is over the cap, whatever else it is given. Otherwise it never
    reads the last turn of its input: on [h ++ [t]] the model is run on
    [h] and every value yielded is [h] followed by the message with the
    partial response, whatever [t] is, and the empty input is treated as
    a single turn is. *)
Theorem generate_ignores_last
    (pyfloat : Type)
    (run : string -> list turn -> string -> Z -> pyfloat -> pyfloat -> Z ->
           bool -> pyfloat -> list string)
    (message : string) (h : list turn) (t : turn)
    sp mnt temp tp tk ds rp :
  generate pyfloat run message (h ++ [t]) sp mnt temp tp tk ds rp
  = (if decide (mnt > MAX_MAX_NEW_TOKENS)%Z then Raise ValueError
     else Ok ((fun response => h ++ [(message, response)])
                <$> run message h sp mnt temp tp tk ds rp))
  /\ generate pyfloat run message [] sp mnt temp tp tk ds rp
     = generate pyfloat run message [t] sp mnt temp tp tk ds rp.
Proof.
  split.
  - unfold generate. case_decide; [done|].
    rewrite length_app. simpl.
    replace (length h + 1 - 1) with (length h) by lia.
    by rewrite take_app_length.
  - unfold generate. by case_decide.
Qed.

(** * Further properties of [assign_uuid] *)

(** X5: when the turn list is longer than the identifier list, the
    identifier list is kept as it is and one pair is appended per new
    turn. One identifier is drawn for a new turn that awaits its response
    and two for one that does not, and every user id appended is one of
    the identifiers drawn by this call. *)
Theorem assign_uuid_grow_prefix uuid4_str (h : list turn) (l : list uuid_pair) c :
  length l < length h ->
  exists news,
    let c' := c + length news
              + length (filter (fun t : turn => t.2 <> "") (drop (length l) h)) in
    assign_uuid uuid4_str h l c = Ok (l ++ news, c') /\
    length news = length h - length l /\
    Forall (fun n : uuid_pair => exists k, c <= k < c' /\ n.1 = uuid4_str k) news.
Proof.
  intros Hlt. rewrite assign_uuid_grow by done.
  assert (Hlen : length (drop (length l) h) = length h - length l)
    by apply length_drop.
  revert Hlen. generalize (drop (length l) h) as xs.
  generalize (length h - length l) as n. clear Hlt h.
  intros n xs. revert n l c.
  induction xs as [|x xs IH]; intros n l c Hn; simpl in *.
  - exists []. simpl. rewrite app_nil_r, !Nat.add_0_r. done.
  - destruct n as [|n]; [done|]. injection Hn as Hn.
    destruct (decide (x.2 = "")) as [Hx|Hx].
    + erewrite bind_Ok by (by apply grow_body_empty).
      destruct (IH n (l ++ [(uuid4_str c, "")]) (S c) Hn) as (news & Hr & Hl & Hf).
      exists ((uuid4_str c, "") :: news). simpl in *.
      rewrite filter_cons_False by (by intros ?).
      split; [|split; [lia|]].
      * rewrite Hr, <- app_assoc. simpl. do 2 f_equal. lia.
      * constructor; [exists c; split; [lia | done]|].
        eapply Forall_impl; [exact Hf|]. simpl.
        intros p (k & Hk & ->). exists k. split; [lia | done].
    + erewrite bind_Ok by (by apply grow_body_full).
      destruct (IH n (l ++ [(uuid4_str c, uuid4_str (S c))]) (S (S c)) Hn)
        as (news & Hr & Hl & Hf).
      exists ((uuid4_str c, uuid4_str (S c)) :: news). simpl in *.
      rewrite filter_cons_True by done. simpl.
      split; [|split; [lia|]].
      * rewrite Hr, <- app_assoc. simpl. do 2 f_equal. lia.
      * constructor; [exists c; split; [lia | done]|].
        eapply Forall_impl; [exact Hf|]. simpl.
        intros p (k & Hk & ->). exists k. split; [lia | done].
Qed.

Lemma assign_uuid_grow_prefix_witness :
  exists news,
    assign_uuid demo_uuid4 [("a", "A"); ("b", "B"); ("c", "")] [("u1", "a1")] 3
    = Ok ([("u1", "a1")] ++ news, 3 + length news + 1) /\
    length news = 2.
Proof.
  destruct (assign_uuid_grow_prefix demo_uuid4
              [("a", "A"); ("b", "B"); ("c", "")] [("u1", "a1")] 3)
    as (news & Hr & Hlen & _); [simpl; lia|].
  exists news. split; [exact Hr | exact Hlen].
Defined.

(** The scan keeps every pair but the last, and the last pair's user id
    is the one it had or that of a scanned pair. *)
Lemma scan_frame uuid4_str (ps : list (turn * uuid_pair)) :
  forall acc c,
    acc <> [] ->
    exists acc' c',
      for_each (scan_body uuid4_str) acc ps c = Ok (acc', c') /\
      removelast acc' = removelast acc /\
      length acc' = length acc /\
      c <= c' <= c + length ps /\
      (forall u', last acc' = Some u' ->
         (exists u, last acc = Some u /\ u'.1 = u.1) \/
         (exists p, p ∈ ps /\ u'.1 = p.2.1)).
Proof.
  induction ps as [|[t u] ps IH]; intros acc c Hacc.
  - exists acc, c. simpl. split; [done|]. split; [done|]. split; [done|].
    split; [lia|]. intros u' Hu'. left. by exists u'.
  - destruct (exists_last Hacc) as (ls & x & ->).
    assert (Hpop : pop (ls ++ [x]) = Ok ls).
    { unfold pop. rewrite removelast_last. by destruct ls. }
    assert (Hstep : exists y c1,
               scan_body uuid4_str (ls ++ [x]) (t, u) c = Ok (ls ++ [y], c1) /\
               c <= c1 <= S c /\ (y.1 = x.1 \/ y.1 = u.1)).
    { unfold scan_body. repeat case_decide;
        unfold mbind, M_bind, bind, lift; rewrite ?Hpop; simpl;
        eexists _, _; (split; [reflexivity|]); simpl; (split; [lia|]); auto. }
    destruct Hstep as (y & c1 & Hstep & Hc1 & Hy).
    destruct (IH (ls ++ [y]) c1) as (acc' & c' & Hr & Hrl & Hlen & Hc & Hlast).
    { intros H. by apply app_eq_nil in H as [_ ?]. }
    exists acc', c'. simpl. erewrite bind_Ok by exact Hstep.
    split; [exact Hr|]. rewrite !removelast_last in *.
    split; [done|]. split; [by rewrite Hlen, !length_app|].
    split; [simpl; lia|].
    intros u' Hu'. destruct (Hlast u' Hu') as [(u0 & Hu0 & E)|(p & Hp & E)].
    + rewrite last_snoc in Hu0. injection Hu0 as <-. rewrite last_snoc.
      destruct Hy as [Hy|Hy].
      * left. exists x. split; [done | congruence].
      * right. exists (t, u). split; [left | simpl; congruence].
    + right. exists p. split; [by right | done].
Qed.

(** X6: when the two lists are equally long, [assign_uuid] returns a list
    of the same length that has the given pairs at every position before
    the last, whatever the turns are. Only the last pair can change; its
    user id is taken from a pair of the given list, and at most one
    identifier is drawn per position. *)
Theorem assign_uuid_scan_frame uuid4_str (h : list turn) (l : list uuid_pair) c :
  length h = length l ->
  exists l' c',
    assign_uuid uuid4_str h l c = Ok (l', c') /\
    length l' = length l /\
    (forall i, S i < length l -> l' !! i = l !! i) /\
    c <= c' <= c + length l /\
    (forall u', last l' = Some u' -> exists u, u ∈ l /\ u'.1 = u.1).
Proof.
  intros Hlen. rewrite assign_uuid_scan by done.
  destruct (decide (l = [])) as [->|Hl].
  { destruct h; [|done]. exists [], c. simpl.
    split; [done|]. split; [done|]. split; [done|]. split; [lia | done]. }
  destruct (scan_frame uuid4_str (zip h l) l c Hl)
    as (l' & c' & Hr & Hrl & Hlen' & Hc & Hlast).
  exists l', c'. split; [done|]. split; [done|]. split; [|split].
  - intros i Hi.
    rewrite !removelast_firstn_len in Hrl.
    rewrite <- (lookup_take_lt l' (pred (length l')) i) by lia.
    rewrite <- (lookup_take_lt l (pred (length l)) i) by lia.
    by rewrite Hrl.
  - rewrite length_zip_with in Hc. lia.
  - intros u' Hu'. destruct (Hlast u' Hu') as [(u & Hu & E)|(p & Hp & E)].
    + exists u. split; [|done]. apply last_Some_elem_of in Hu. done.
    + exists p.2. split; [|done].
      destruct p as [t u]. by apply elem_of_zip_r in Hp.
Qed.

Lemma assign_uuid_scan_frame_witness :
  exists l' c',
    assign_uuid demo_uuid4 [("a", ""); ("b", "B")] [("u1", "a1"); ("u2", "")] 0
    = Ok (l', c') /\
    l' !! 0 = Some ("u1", "a1").
Proof.
  destruct (assign_uuid_scan_frame demo_uuid4 [("a", ""); ("b", "B")]
              [("u1", "a1"); ("u2", "")] 0)
    as (l' & c' & Hr & _ & Hkeep & _); [reflexivity|].
  exists l', c'. split; [exact Hr|].
  rewrite (Hkeep 0) by (simpl; lia). reflexivity.
Defined.

(** * Further properties of [output_log] *)

(** X7: [output_log] raises in three cases only, each time [IndexError]:
    the identifier list is empty, the history is empty, or the history has
    two or more turns while the identifier list is a single pair with an
    empty assistant id (the pair before the last is then missing). On any
    other input it builds a record, whether the lists have the same length
    or not. *)
Theorem output_log_raises (now : string) (history : list turn)
    (uuid_list : list uuid_pair) :
  let fails :=
    uuid_list = [] \/ history = [] \/
    (2 <= length history /\ exists u, uuid_list = [(u, "")]) in
  (fails -> output_log now history uuid_list = Raise IndexError) /\
  (~ fails -> exists d, output_log now history uuid_list = Ok d).
Proof.
  simpl. split.
  - intros [-> | [-> | (H2 & u & ->)]].
    + unfold output_log. by rewrite py_index_nil.
    + destruct uuid_list as [|first_uuids rest];
        unfold output_log; [by rewrite py_index_nil|].
      assert (Hf : py_index (first_uuids :: rest) 0 = Ok first_uuids)
        by (by apply (py_index_nonneg _ 0)).
      rewrite Hf. cbn [mbind PyResult_bind]. by rewrite py_index_nil.
    + assert (Hh : history <> []) by (intros ->; simpl in H2; lia).
      destruct (exists_last Hh) as (hs & t & ->).
      assert (E1 : py_index (hs ++ [t]) (-1) = Ok t)
        by (apply py_index_last, last_snoc).
      unfold output_log.
      change (py_index [(u, "")] 0) with (Ok (A := uuid_pair) (u, "")).
      change (py_index [(u, "")] (-1)) with (Ok (A := uuid_pair) (u, "")).
      cbn [mbind PyResult_bind]. rewrite E1. cbn [mbind PyResult_bind].
      simpl. rewrite decide_True by done. reflexivity.
  - intros Hok.
    assert (Hl : uuid_list <> []) by tauto.
    assert (Hh : history <> []) by tauto.
    destruct (exists_last Hh) as (hs & t & Eh).
    destruct (exists_last Hl) as (ls & u & El).
    destruct (lookup_lt_is_Some_2 uuid_list 0) as [first_uuids H0].
    { destruct uuid_list; simpl; [done | lia]. }
    assert (E0 : py_index uuid_list 0 = Ok first_uuids)
      by (by apply (py_index_nonneg uuid_list 0)).
    assert (E1 : py_index history (-1) = Ok t)
      by (apply py_index_last; rewrite Eh; apply last_snoc).
    assert (E2 : py_index uuid_list (-1) = Ok u)
      by (apply py_index_last; rewrite El; apply last_snoc).
    unfold output_log. rewrite E0, E1, E2. cbn [mbind PyResult_bind].
    destruct (decide (u.2 = "")) as [Hu|Hu]; [|by eexists].
    destruct (decide (2 <= length history)) as [H2|H2]; [|by eexists].
    assert (Hlen : 2 <= length uuid_list).
    { destruct ls as [|x ls].
      - exfalso. apply Hok. right. right. split; [done|].
        exists u.1. rewrite El. simpl. destruct u as [u1 u2].
        simpl in Hu. by rewrite Hu.
      - rewrite El. rewrite length_app. simpl. lia. }
    destruct (lookup_lt_is_Some_2 uuid_list (length uuid_list - 2)) as [p Hp];
      [lia|].
    assert (E3 : py_index uuid_list (-2) = Ok p)
      by (apply (py_index_neg uuid_list 2); [lia | done]).
    rewrite E3. by eexists.
Qed.

Lemma output_log_raises_witness :
  output_log "now" [("a", "A"); ("b", "")] [("u2", "")] = Raise IndexError /\
  exists d, output_log "now" [("a", "A"); ("b", "B")] [("u2", "a2")] = Ok d.
Proof.
  split.
  - destruct (output_log_raises "now" [("a", "A"); ("b", "")] [("u2", "")])
      as [H _].
    apply H. right. right. split; [simpl; lia|]. by exists "u2".
  - destruct (output_log_raises "now" [("a", "A"); ("b", "B")] [("u2", "a2")])
      as [_ H].
    apply H. intros [H1 | [H1 | (_ & u & H1)]]; discriminate H1.
Defined.

(** * Further properties of the event chains *)

Lemma reconciled_snoc_reconcilable (h : list turn) (t : turn) (l : list uuid_pair) :
  reconciled h l -> reconcilable (h ++ [t]) l.
Proof.
  intros [Hlen H] i t' u Ht Hu _.
  pose proof (lookup_lt_Some _ _ _ Hu) as Hi.
  rewrite lookup_app_l in Ht by lia. eauto.
Qed.

Lemma reconciled_replace_last (h : list turn) (t t' : turn) (l : list uuid_pair) :
  reconciled (h ++ [t]) l -> reconcilable (h ++ [t']) l.
Proof.
  intros [Hlen H] i t0 u Ht Hu Hi.
  rewrite !length_app in *. simpl in *.
  specialize (Hi (eq_sym Hlen)).
  rewrite lookup_app_l in Ht by lia.
  apply (H i t0 u); [|done]. by apply lookup_app_l_Some.
Qed.

Lemma check_input_token_length_empty_raises tok h sp :
  check_input_token_length tok "" h sp <> Ok ().
Proof.
  destruct (proj2 (check_input_token_length_raises tok "" h sp)) as [e He];
    [by right|].
  by rewrite He.
Qed.

Section ChainInvariant.

Variable uuid4_str : nat -> string.
Hypothesis uuid4_str_nonempty : forall k, uuid4_str k <> "".
Variable get_input_token_length : string -> list turn -> string -> Z.
Variable pyfloat : Type.
Variable run :
  string -> list turn -> string -> Z -> pyfloat -> pyfloat -> Z -> bool ->
  pyfloat -> list string.
Variable strftime_now : nat -> string.
Variable cfg : Settings pyfloat.

#[local] Abbreviation sa := (step_assign_uuid uuid4_str).
#[local] Abbreviation sl := (step_output_log strftime_now).
#[local] Abbreviation sg := (step_generate pyfloat run cfg).
#[local] Abbreviation sk :=
  (step_check_input_token_length get_input_token_length pyfloat cfg).

Lemma run_chain_then (b : bool) (fn : Session -> PyResult Session)
    (rest : list Step) (s : Session) :
  run_chain b ((Then, fn) :: rest) s
  = match fn s with
    | Ok s' => run_chain true rest s'
    | Raise _ => run_chain false rest s
    end.
Proof. by destruct b. Qed.

Lemma run_chain_success (fn : Session -> PyResult Session)
    (rest : list Step) (s : Session) :
  run_chain true ((Success, fn) :: rest) s
  = match fn s with
    | Ok s' => run_chain true rest s'
    | Raise _ => run_chain false rest s
    end.
Proof. reflexivity. Qed.

(** The step [assign_uuid] on lists that can be reconciled. *)
Lemma step_assign_uuid_reconciles (s : Session) :
  reconcilable (chatbot s) (uuid_list s) ->
  exists s1,
    sa s = Ok s1 /\ chatbot s1 = chatbot s /\ saved_input s1 = saved_input s /\
    reconciled (chatbot s1) (uuid_list s1).
Proof.
  intros Hrec.
  destruct (assign_uuid_reconciles uuid4_str (chatbot s) (uuid_list s)
              (uuid_calls s) uuid4_str_nonempty Hrec) as (l' & c' & Hr & Hf).
  apply reconciled_Forall2 in Hf.
  unfold step_assign_uuid. rewrite Hr. cbn [mbind PyResult_bind].
  eexists. split; [reflexivity|]. by simpl.
Qed.

(** The step [output_log] writes neither list, whether it raises or not. *)
Lemma step_output_log_frame (s : Session) :
  (exists e, sl s = Raise e) \/
  (exists s1,
     sl s = Ok s1 /\ chatbot s1 = chatbot s /\ saved_input s1 = saved_input s /\
     uuid_list s1 = uuid_list s).
Proof.
  unfold step_output_log.
  destruct (output_log _ (chatbot s) (uuid_list s)) as [d|e];
    cbn [mbind PyResult_bind]; [right | left; by eexists].
  eexists. split; [reflexivity|]. by simpl.
Qed.

(** The last three steps of every submit and retry chain. *)
Lemma tail_reconciles (b : bool) (s : Session) :
  reconcilable (chatbot s) (uuid_list s) ->
  let s' :=
    run_chain b [(Then, sa); (Then, sl); (Then, step_convert_history_to_str)] s in
  chatbot s' = chatbot s /\ reconciled (chatbot s') (uuid_list s').
Proof.
  intros Hrec s'. subst s'.
  destruct (step_assign_uuid_reconciles s Hrec) as (s1 & Hsa & Hc1 & _ & Hr1).
  rewrite run_chain_then, Hsa, run_chain_then.
  destruct (step_output_log_frame s1) as [[e He]|(s2 & He & Hc2 & _ & Hu2)];
    rewrite He; simpl.
  - by rewrite <- Hc1.
  - rewrite Hc2, Hu2. by rewrite <- Hc1.
Qed.

(** What the [generate] step leaves in [chatbot]. *)
Lemma step_generate_shape (s : Session) (h : list turn) :
  chatbot s = h ++ [(saved_input s, "")] ->
  (exists e, sg s = Raise e) \/
  (exists s' r,
     sg s = Ok s' /\ chatbot s' = h ++ [(saved_input s, r)] /\
     uuid_list s' = uuid_list s).
Proof.
  intros Hc. unfold step_generate, generate.
  case_decide; [left; by eexists|]. right.
  cbn [mbind PyResult_bind]. rewrite Hc. rewrite length_app. simpl.
  replace (length h + 1 - 1) with (length h) by lia.
  rewrite take_app_length. rewrite fmap_last.
  destruct (last _) as [r|]; simpl.
  - eexists _, r. split; [reflexivity|]. by simpl.
  - eexists _, "". split; [reflexivity|]. by simpl.
Qed.

Lemma from_generate (gm : trigger) (b : bool) (s : Session) (h : list turn) :
  chatbot s = h ++ [(saved_input s, "")] ->
  reconciled (chatbot s) (uuid_list s) ->
  let s' :=
    run_chain b
      [(gm, sg); (Then, sa); (Then, sl); (Then, step_convert_history_to_str)] s in
  reconciled (chatbot s') (uuid_list s') /\
  exists r, chatbot s' = h ++ [(saved_input s, r)].
Proof.
  intros Hc Hrec.
  assert (Hstop : reconciled (chatbot s) (uuid_list s) /\
                  exists r, chatbot s = h ++ [(saved_input s, r)])
    by (split; [done | by exists ""]).
  assert (Hrun : let s' :=
            match sg s with
            | Ok s1 => run_chain true
                [(Then, sa); (Then, sl); (Then, step_convert_history_to_str)] s1
            | Raise _ => run_chain false
                [(Then, sa); (Then, sl); (Then, step_convert_history_to_str)] s
            end in
          reconciled (chatbot s') (uuid_list s') /\
          exists r, chatbot s' = h ++ [(saved_input s, r)]).
  { destruct (step_generate_shape s h Hc) as [[e He]|(s1 & r & He & Hc1 & Hu1)];
      rewrite He.
    - destruct (tail_reconciles false s (reconciled_reconcilable _ _ Hrec))
        as [E1 E2].
      split; [done|]. exists "". by rewrite E1.
    - destruct (tail_reconciles true s1) as [E1 E2].
      { rewrite Hc1, Hu1. eapply reconciled_replace_last. by rewrite <- Hc. }
      split; [done|]. exists r. by rewrite E1. }
  intros s'. subst s'. destruct gm, b; try exact Hrun. exact Hstop.
Qed.

(** Every submit and retry chain from the step after [display_input]. *)
Lemma after_display_input (gm : trigger) (s : Session) (h : list turn) :
  chatbot s = h ++ [(saved_input s, "")] ->
  reconcilable (chatbot s) (uuid_list s) ->
  let s' :=
    run_chain true
      [(Then, sa); (Then, sl); (gm, sg); (Then, sa); (Then, sl);
       (Then, step_convert_history_to_str)] s in
  reconciled (chatbot s') (uuid_list s') /\
  exists r, chatbot s' = h ++ [(saved_input s, r)].
Proof.
  intros Hc Hrec s'. subst s'.
  destruct (step_assign_uuid_reconciles s Hrec) as (s1 & Hsa & Hc1 & Hm1 & Hr1).
  rewrite run_chain_then, Hsa, run_chain_then.
  destruct (step_output_log_frame s1) as [[e He]|(s2 & He & Hc2 & Hm2 & Hu2)];
    rewrite He.
  - destruct (from_generate gm false s1 h) as [H1 [r H2]];
      [by rewrite Hc1, Hm1 | done |].
    split; [exact H1|]. exists r. by rewrite <- Hm1.
  - destruct (from_generate gm true s2 h) as [H1 [r H2]].
    + by rewrite Hc2, Hm2, Hc1, Hm1.
    + by rewrite Hc2, Hu2.
    + split; [exact H1|]. exists r. by rewrite <- Hm1, <- Hm2.
Qed.

(** X8: both submit chains keep the lists reconciled. From a state whose
    identifier list is reconciled with its turn list, whatever the
    message, the settings and the stream are - validation failing or not,
    [generate] raising or not, the stream empty or not - the chain ends
    in a state whose identifier list is reconciled with its turn list,
    and the turn list is the one it started with, alone or followed by
    one turn for the message. *)
Theorem submit_chains_keep_reconciled (s : Session) (chain : list Step) :
  chain = textbox_submit uuid4_str get_input_token_length pyfloat run
            strftime_now cfg \/
  chain = submit_button_click uuid4_str get_input_token_length pyfloat run
            strftime_now cfg ->
  reconciled (chatbot s) (uuid_list s) ->
  let s' := run_chain true chain s in
  reconciled (chatbot s') (uuid_list s') /\
  (chatbot s' = chatbot s \/ exists r, chatbot s' = chatbot s ++ [(textbox s, r)]).
Proof.
  intros Hchain Hrec.
  assert (Hgm : exists gm,
             chain =
             [(Then, step_clear_and_save_textbox); (Then, sk);
              (Success, step_display_input); (Then, sa); (Then, sl); (gm, sg);
              (Then, sa); (Then, sl); (Then, step_convert_history_to_str)]).
  { destruct Hchain as [-> | ->]; [by exists Then | by exists Success]. }
  destruct Hgm as [gm ->]. intros s'. subst s'.
  rewrite run_chain_then. unfold step_clear_and_save_textbox.
  cbn [clear_and_save_textbox]. rewrite run_chain_then.
  unfold step_check_input_token_length. cbn [saved_input chatbot].
  destruct (check_input_token_length _ (textbox s) (chatbot s) _) as [[]|e];
    cbn [mbind PyResult_bind].
  - rewrite run_chain_success. unfold step_display_input. cbv beta match.
    match goal with
    | |- context [run_chain true _ ?s1] =>
        destruct (after_display_input gm s1 (chatbot s)) as [H1 [r H2]]
    end.
    + reflexivity.
    + simpl. by apply reconciled_snoc_reconcilable.
    + split; [exact H1|]. right. exists r. exact H2.
  - simpl. split; [done | by left].
Qed.


End ChainInvariant.

Lemma concrete_reconciled :
  reconciled [("a", "A")] [("u1", "a1")].
Proof.
  apply reconciled_Forall2. constructor; [|constructor].
  unfold agree; simpl. split; intros H; discriminate H.
Qed.

Lemma submit_chains_keep_reconciled_witness :
  let s := {| textbox := "b"; saved_input := ""; chatbot := [("a", "A")];
              uuid_list := [("u1", "a1")]; output_textbox := "";
              uuid_calls := 2; clock_calls := 2; audit := [] |} in
  let cfg := {| system_prompt := "sys"; max_new_tokens := 512%Z;
                temperature := (); top_p := (); top_k := 50%Z;
                do_sample := false; repetition_penalty := () |} in
  let chain :=
    textbox_submit demo_uuid4 (fun _ _ _ => 0%Z) ()
      (fun _ _ _ _ _ _ _ _ _ => ["B"; "Bc"]) (fun _ => "now") cfg in
  reconciled (chatbot (run_chain true chain s))
    (uuid_list (run_chain true chain s)).
Proof.
  intros s cfg chain.
  destruct (submit_chains_keep_reconciled demo_uuid4 demo_uuid4_nonempty
              (fun _ _ _ => 0%Z) () (fun _ _ _ _ _ _ _ _ _ => ["B"; "Bc"])
              (fun _ => "now") cfg s chain) as [H _].
  - left. reflexivity.
  - exact concrete_reconciled.
  - exact H.
Defined.


(** X10: the undo chain, from reconciled lists, removes the last turn and
    the last identifier pair and puts the removed user message in the
    text box; it draws no identifier, builds no audit record, renders the
    transcript of the turns left and leaves the lists reconciled. On the
    empty history it changes neither list and empties the text box. *)
Theorem undo_chain_effect uuid4_str (s : Session) :
  reconciled (chatbot s) (uuid_list s) ->
  let s' := run_chain true (undo_button_click uuid4_str) s in
  chatbot s' = (delete_prev_fn (chatbot s)).1 /\
  textbox s' = (delete_prev_fn (chatbot s)).2 /\
  uuid_list s' = take (length (chatbot s) - 1) (uuid_list s) /\
  uuid_calls s' = uuid_calls s /\
  audit s' = audit s /\
  output_textbox s' = convert_history_to_str (chatbot s') /\
  reconciled (chatbot s') (uuid_list s').
Proof.
  intros Hrec s'. subst s'. unfold undo_button_click.
  rewrite run_chain_then. unfold step_delete_prev_fn.
  destruct (decide (chatbot s = [])) as [E|E].
  - destruct Hrec as [Hlen _]. rewrite E in *.
    assert (El : uuid_list s = []) by (by destruct (uuid_list s)).
    simpl. unfold step_assign_uuid. simpl. rewrite El. simpl.
    do 6 (split; [done|]). split; [done|].
    intros i t u Ht. rewrite lookup_nil in Ht. discriminate Ht.
  - destruct (exists_last E) as (hs & [m a] & Eh).
    destruct Hrec as [Hlen Hag]. rewrite Eh in *.
    rewrite delete_prev_fn_snoc. cbv beta match.
    rewrite length_app in *. simpl in Hlen.
    rewrite run_chain_then. unfold step_assign_uuid.
    cbn [chatbot uuid_list uuid_calls].
    rewrite assign_uuid_shrink by lia. cbn [mbind PyResult_bind].
    simpl. replace (length hs + 1 - 1) with (length hs) by lia.
    do 6 (split; [done|]). split; [rewrite length_take; lia|].
    intros i t u Ht Hu. apply lookup_take_Some in Hu as [Hu Hi].
    apply (Hag i t u); [by apply lookup_app_l_Some | done].
Qed.

Lemma undo_chain_effect_witness :
  let s := {| textbox := ""; saved_input := ""; chatbot := [("a", "A")];
              uuid_list := [("u1", "a1")]; output_textbox := "";
              uuid_calls := 2; clock_calls := 2; audit := [] |} in
  chatbot (run_chain true (undo_button_click demo_uuid4) s) = [] /\
  textbox (run_chain true (undo_button_click demo_uuid4) s) = "a".
Proof.
  intros s.
  destruct (undo_chain_effect demo_uuid4 s concrete_reconciled)
    as (H1 & H2 & _).
  split; [exact H1 | exact H2].
Defined.

(** ** A whole exchange *)

Lemma py_index_head {A} (ls : list A) (x : A) :
  py_index (ls ++ [x]) 0 = Ok (default x (head ls)).
Proof. apply (py_index_nonneg _ 0). by destruct ls. Qed.

(** The record for a turn that awaits its response. *)
Lemma output_log_user (now : string) (h : list turn) (t : turn)
    (ls : list uuid_pair) (u : string) :
  length ls = length h ->
  output_log now (h ++ [t]) (ls ++ [(u, "")])
  = Ok {| created_at := now;
          tree_uuid := (default (u, "") (head ls)).1;
          parent_uuid := match last ls with Some p => p.2 | None => u end;
          uuid := u; role := "user"; message := t.1 |}.
Proof.
  intros Hlen.
  assert (E1 : py_index (h ++ [t]) (-1) = Ok t)
    by (apply py_index_last, last_snoc).
  assert (E2 : py_index (ls ++ [(u, "")]) (-1) = Ok (u, ""))
    by (apply py_index_last, last_snoc).
  unfold output_log. rewrite py_index_head, E1, E2.
  cbn [mbind PyResult_bind snd]. rewrite decide_True by done.
  destruct (decide (ls = [])) as [->|Hls].
  - destruct h; [|done]. reflexivity.
  - destruct (exists_last Hls) as (ls' & p & ->).
    rewrite decide_True
      by (rewrite length_app, <- Hlen, length_app; simpl; lia).
    assert (E3 : py_index ((ls' ++ [p]) ++ [(u, "")]) (-2) = Ok p).
    { apply (py_index_neg _ 2).
      - rewrite !length_app. simpl. lia.
      - rewrite !length_app. simpl.
        replace (length ls' + 1 + 1 - 2) with (length ls') by lia.
        rewrite <- app_assoc. simpl. by apply list_lookup_middle. }
    rewrite E3. cbn [mbind PyResult_bind]. by rewrite last_snoc.
Qed.

(** The record for a turn that has its response. *)
Lemma output_log_assistant (now : string) (h : list turn) (t : turn)
    (ls : list uuid_pair) (u a : string) :
  a <> "" ->
  output_log now (h ++ [t]) (ls ++ [(u, a)])
  = Ok {| created_at := now;
          tree_uuid := (default (u, a) (head ls)).1;
          parent_uuid := u; uuid := a; role := "assistant";
          message := t.2 |}.
Proof.
  intros Ha.
  assert (E1 : py_index (h ++ [t]) (-1) = Ok t)
    by (apply py_index_last, last_snoc).
  assert (E2 : py_index (ls ++ [(u, a)]) (-1) = Ok (u, a))
    by (apply py_index_last, last_snoc).
  unfold output_log. rewrite py_index_head, E1, E2.
  cbn [mbind PyResult_bind snd]. by rewrite decide_False by done.
Qed.

Lemma head_snoc_user (ls : list uuid_pair) (u a b : string) :
  (default (u, a) (head ls)).1 = (default (u, b) (head ls)).1.
Proof. by destruct ls. Qed.

Lemma run_chain_true (gm : trigger) (fn : Session -> PyResult Session)
    (rest : list Step) (s : Session) :
  run_chain true ((gm, fn) :: rest) s
  = match fn s with
    | Ok s' => run_chain true rest s'
    | Raise _ => run_chain false rest s
    end.
Proof. by destruct gm. Qed.

(** One identifier pair for one new turn that awaits its response. *)
Lemma assign_uuid_append uuid4_str (h : list turn) (m : string)
    (l : list uuid_pair) c :
  length l = length h ->
  assign_uuid uuid4_str (h ++ [(m, "")]) l c
  = Ok (l ++ [(uuid4_str c, "")], S c).
Proof.
  intros Hlen. rewrite assign_uuid_grow by (rewrite length_app; simpl; lia).
  rewrite Hlen, drop_app_length. reflexivity.
Qed.

(** Reduce the projections of a session written out as a record. *)
Ltac session_fields :=
  cbn [textbox saved_input chatbot uuid_list output_textbox uuid_calls
       clock_calls audit].

Section Exchange.

Variable uuid4_str : nat -> string.
Hypothesis uuid4_str_nonempty : forall k, uuid4_str k <> "".
Variable get_input_token_length : string -> list turn -> string -> Z.
Variable pyfloat : Type.
Variable run :
  string -> list turn -> string -> Z -> pyfloat -> pyfloat -> Z -> bool ->
  pyfloat -> list string.
Variable strftime_now : nat -> string.
Variable cfg : Settings pyfloat.

#[local] Abbreviation responses := (responses pyfloat run cfg).

Lemma step_generate_last (s : Session) (h : list turn) (a r : string) :
  chatbot s = h ++ [(saved_input s, a)] ->
  (max_new_tokens pyfloat cfg <= MAX_MAX_NEW_TOKENS)%Z ->
  last (responses (saved_input s) h) = Some r ->
  step_generate pyfloat run cfg s
  = Ok (set_chatbot s (h ++ [(saved_input s, r)])).
Proof.
  intros Hc Hm Hr. unfold step_generate. rewrite Hc.
  rewrite generate_yields by done. cbn [mbind PyResult_bind].
  rewrite fmap_last. fold (responses (saved_input s) h). by rewrite Hr.
Qed.

(** From the first audit record to the end of a submit or retry chain. *)
Lemma exchange_tail (gm : trigger) (s : Session) (h : list turn)
    (ls : list uuid_pair) (u r : string) :
  chatbot s = h ++ [(saved_input s, "")] ->
  uuid_list s = ls ++ [(u, "")] ->
  Forall2 agree h ls ->
  (max_new_tokens pyfloat cfg <= MAX_MAX_NEW_TOKENS)%Z ->
  last (responses (saved_input s) h) = Some r -> r <> "" ->
  run_chain true
    [(Then, step_output_log strftime_now);
     (gm, step_generate pyfloat run cfg);
     (Then, step_assign_uuid uuid4_str);
     (Then, step_output_log strftime_now);
     (Then, step_convert_history_to_str)] s
  = {| textbox := textbox s; saved_input := saved_input s;
       chatbot := h ++ [(saved_input s, r)];
       uuid_list := ls ++ [(u, uuid4_str (uuid_calls s))];
       output_textbox := convert_history_to_str (h ++ [(saved_input s, r)]);
       uuid_calls := S (uuid_calls s);
       clock_calls := S (S (clock_calls s));
       audit :=
         audit s ++
         [ {| created_at := strftime_now (clock_calls s);
              tree_uuid := (default (u, "") (head ls)).1;
              parent_uuid := match last ls with Some p => p.2 | None => u end;
              uuid := u; role := "user"; message := saved_input s |};
           {| created_at := strftime_now (S (clock_calls s));
              tree_uuid := (default (u, "") (head ls)).1;
              parent_uuid := u; uuid := uuid4_str (uuid_calls s);
              role := "assistant"; message := r |} ] |}.
Proof.
  intros Hc Hu Hf Hm Hr Hne.
  pose proof (Forall2_length _ _ _ Hf) as Hlen.
  destruct s as [tb m cb ul ot c k au].
  cbn [textbox saved_input chatbot uuid_list output_textbox uuid_calls
       clock_calls audit] in *.
  subst cb ul.
  rewrite run_chain_then. unfold step_output_log. session_fields.
  rewrite output_log_user by done. cbn [mbind PyResult_bind].
  rewrite run_chain_true.
  erewrite step_generate_last; [|reflexivity | done | exact Hr].
  rewrite run_chain_then. unfold step_assign_uuid, set_chatbot.
  session_fields.
  rewrite assign_uuid_last by done.
  assert (Erep : repair uuid4_str (m, r) (u, "") c = ((u, uuid4_str c), S c)).
  { unfold repair. simpl. by rewrite decide_True. }
  rewrite Erep. cbn [mbind PyResult_bind fst snd]. session_fields.
  rewrite run_chain_then. unfold step_output_log. session_fields.
  rewrite output_log_assistant by apply uuid4_str_nonempty.
  cbn [mbind PyResult_bind].
  rewrite (head_snoc_user ls u (uuid4_str c) "").
  rewrite <- app_assoc. reflexivity.
Qed.

(** X11: a submit that passes validation, from reconciled lists, with the
    number of new tokens within the cap and a stream whose last partial
    response [r] is non-empty. Either submit chain ends with the text box
    emptied, one turn appended (the message with [r]), one identifier
    pair appended whose two ids are the next two identifiers drawn, and
    two audit records appended: a user record under the new user id, whose
    parent is the previous assistant id (or the new user id in a first
    turn), and an assistant record under the new assistant id whose
    parent is the new user id. Both records carry the user id of the
    first pair as tree id. *)
Theorem submit_exchange (s : Session) (chain : list Step) (r : string) :
  chain = textbox_submit uuid4_str get_input_token_length pyfloat run
            strftime_now cfg \/
  chain = submit_button_click uuid4_str get_input_token_length pyfloat run
            strftime_now cfg ->
  reconciled (chatbot s) (uuid_list s) ->
  check_input_token_length get_input_token_length (textbox s) (chatbot s)
    (system_prompt pyfloat cfg) = Ok () ->
  (max_new_tokens pyfloat cfg <= MAX_MAX_NEW_TOKENS)%Z ->
  last (responses (textbox s) (chatbot s)) = Some r -> r <> "" ->
  let u := uuid4_str (uuid_calls s) in
  let a := uuid4_str (S (uuid_calls s)) in
  let tree := (default (u, "") (head (uuid_list s))).1 in
  run_chain true chain s
  = {| textbox := ""; saved_input := textbox s;
       chatbot := chatbot s ++ [(textbox s, r)];
       uuid_list := uuid_list s ++ [(u, a)];
       output_textbox := convert_history_to_str (chatbot s ++ [(textbox s, r)]);
       uuid_calls := S (S (uuid_calls s));
       clock_calls := S (S (clock_calls s));
       audit :=
         audit s ++
         [ {| created_at := strftime_now (clock_calls s);
              tree_uuid := tree;
              parent_uuid :=
                match last (uuid_list s) with Some p => p.2 | None => u end;
              uuid := u; role := "user"; message := textbox s |};
           {| created_at := strftime_now (S (clock_calls s));
              tree_uuid := tree;
              parent_uuid := u; uuid := a;
              role := "assistant"; message := r |} ] |}.
Proof.
  intros Hchain [Hlen Hag] Hcheck Hm Hr Hne u a tree. subst u a tree.
  assert (Hf : Forall2 agree (chatbot s) (uuid_list s))
    by (by apply reconciled_Forall2).
  assert (Hgm : exists gm,
             chain =
             [(Then, step_clear_and_save_textbox);
              (Then, step_check_input_token_length get_input_token_length
                       pyfloat cfg);
              (Success, step_display_input);
              (Then, step_assign_uuid uuid4_str);
              (Then, step_output_log strftime_now);
              (gm, step_generate pyfloat run cfg);
              (Then, step_assign_uuid uuid4_str);
              (Then, step_output_log strftime_now);
              (Then, step_convert_history_to_str)]).
  { destruct Hchain as [-> | ->]; [by exists Then | by exists Success]. }
  destruct Hgm as [gm ->].
  destruct s as [tb si cb ul ot c k au].
  cbn [textbox saved_input chatbot uuid_list output_textbox uuid_calls
       clock_calls audit] in *.
  rewrite run_chain_then. unfold step_clear_and_save_textbox.
  cbn [clear_and_save_textbox textbox chatbot uuid_list output_textbox
       uuid_calls clock_calls audit].
  rewrite run_chain_then. unfold step_check_input_token_length.
  cbn [saved_input chatbot]. rewrite Hcheck. cbn [mbind PyResult_bind].
  rewrite run_chain_success. unfold step_display_input, set_chatbot, display_input.
  cbn [textbox saved_input chatbot uuid_list output_textbox uuid_calls
       clock_calls audit].
  rewrite run_chain_then. unfold step_assign_uuid.
  cbn [textbox saved_input chatbot uuid_list output_textbox uuid_calls
       clock_calls audit].
  rewrite assign_uuid_append by done. cbn [mbind PyResult_bind].
  rewrite (exchange_tail gm _ cb ul (uuid4_str c) r); try done.
Qed.

(** X12: a retry that passes validation, from reconciled lists whose
    last turn is [(m, a)] with identifier pair [(u, a')], with the number
    of new tokens within the cap and a stream whose last partial response
    [r] is non-empty. The chain ends with the last turn replaced by
    [(m, r)] and the last pair by [(u, fresh)]: the user id is kept, the
    assistant id is the one identifier drawn. Two audit records are
    appended: a user record under the kept user id and an assistant
    record under the new assistant id. *)
Theorem retry_exchange (s : Session) (h : list turn) (m a : string)
    (ls : list uuid_pair) (u a' r : string) :
  chatbot s = h ++ [(m, a)] ->
  uuid_list s = ls ++ [(u, a')] ->
  reconciled (chatbot s) (uuid_list s) ->
  check_input_token_length get_input_token_length m h
    (system_prompt pyfloat cfg) = Ok () ->
  (max_new_tokens pyfloat cfg <= MAX_MAX_NEW_TOKENS)%Z ->
  last (responses m h) = Some r -> r <> "" ->
  let tree := (default (u, "") (head ls)).1 in
  run_chain true
    (retry_button_click uuid4_str get_input_token_length pyfloat run
       strftime_now cfg) s
  = {| textbox := textbox s; saved_input := m;
       chatbot := h ++ [(m, r)];
       uuid_list := ls ++ [(u, uuid4_str (uuid_calls s))];
       output_textbox := convert_history_to_str (h ++ [(m, r)]);
       uuid_calls := S (uuid_calls s);
       clock_calls := S (S (clock_calls s));
       audit :=
         audit s ++
         [ {| created_at := strftime_now (clock_calls s);
              tree_uuid := tree;
              parent_uuid := match last ls with Some p => p.2 | None => u end;
              uuid := u; role := "user"; message := m |};
           {| created_at := strftime_now (S (clock_calls s));
              tree_uuid := tree;
              parent_uuid := u; uuid := uuid4_str (uuid_calls s);
              role := "assistant"; message := r |} ] |}.
Proof.
  intros Hc Hu Hrec Hcheck Hm Hr Hne tree. subst tree.
  destruct s as [tb si cb ul ot c k au]. session_fields.
  simpl in Hc, Hu, Hrec. subst cb ul.
  apply reconciled_Forall2 in Hrec.
  apply Forall2_app_inv_l in Hrec as (ls0 & k0 & Hf & Hk & E).
  inversion Hk as [|t x ? k' _ Hnil]; subst. inversion Hnil; subst.
  apply app_inj_tail in E as [-> _].
  unfold retry_button_click.
  rewrite run_chain_then. unfold step_delete_prev_fn. session_fields.
  rewrite delete_prev_fn_snoc. cbv beta match.
  rewrite run_chain_then. unfold step_check_input_token_length. session_fields.
  rewrite Hcheck. cbn [mbind PyResult_bind].
  rewrite run_chain_success. unfold step_display_input, set_chatbot, display_input.
  session_fields.
  rewrite run_chain_then. unfold step_assign_uuid. session_fields.
  rewrite assign_uuid_last by done.
  assert (Erep : repair uuid4_str (m, "") (u, a') c = ((u, ""), c)).
  { unfold repair. simpl.
    destruct (decide (a' = "")) as [->|Ha'];
      [by rewrite decide_False by (by intros [_ H]) | by rewrite decide_True]. }
  rewrite Erep. cbn [mbind PyResult_bind fst snd].
  rewrite (exchange_tail Then _ h ls0 u r); done.
Qed.

End Exchange.

Lemma submit_exchange_witness :
  let s := {| textbox := "b"; saved_input := ""; chatbot := [("a", "A")];
              uuid_list := [("u1", "a1")]; output_textbox := "";
              uuid_calls := 2; clock_calls := 2; audit := [] |} in
  let cfg := {| system_prompt := "sys"; max_new_tokens := 512%Z;
                temperature := (); top_p := (); top_k := 50%Z;
                do_sample := false; repetition_penalty := () |} in
  let chain :=
    submit_button_click demo_uuid4 (fun _ _ _ => 0%Z) ()
      (fun _ _ _ _ _ _ _ _ _ => ["B"; "Bc"]) (fun k => pretty k) cfg in
  chatbot (run_chain true chain s) = [("a", "A"); ("b", "Bc")] /\
  uuid_list (run_chain true chain s) = [("u1", "a1"); ("u2", "u3")] /\
  audit (run_chain true chain s)
  = [ {| created_at := "2"; tree_uuid := "u1"; parent_uuid := "a1";
         uuid := "u2"; role := "user"; message := "b" |};
      {| created_at := "3"; tree_uuid := "u1"; parent_uuid := "u2";
         uuid := "u3"; role := "assistant"; message := "Bc" |} ].
Proof.
  intros s cfg chain.
  rewrite (submit_exchange demo_uuid4 demo_uuid4_nonempty (fun _ _ _ => 0%Z) ()
             (fun _ _ _ _ _ _ _ _ _ => ["B"; "Bc"]) (fun k => pretty k) cfg
             s chain "Bc").
  - split; [reflexivity|]. split; reflexivity.
  - right. reflexivity.
  - exact concrete_reconciled.
  - reflexivity.
  - unfold MAX_MAX_NEW_TOKENS. simpl. lia.
  - reflexivity.
  - discriminate.
Defined.

Lemma retry_exchange_witness :
  let s := {| textbox := ""; saved_input := ""; chatbot := [("a", "A")];
              uuid_list := [("u1", "a1")]; output_textbox := "";
              uuid_calls := 2; clock_calls := 2; audit := [] |} in
  let cfg := {| system_prompt := "sys"; max_new_tokens := 512%Z;
                temperature := (); top_p := (); top_k := 50%Z;
                do_sample := false; repetition_penalty := () |} in
  let chain :=
    retry_button_click demo_uuid4 (fun _ _ _ => 0%Z) ()
      (fun _ _ _ _ _ _ _ _ _ => ["A2"]) (fun k => pretty k) cfg in
  chatbot (run_chain true chain s) = [("a", "A2")] /\
  uuid_list (run_chain true chain s) = [("u1", "u2")].
Proof.
  intros s cfg chain. unfold chain.
  rewrite (retry_exchange demo_uuid4 demo_uuid4_nonempty (fun _ _ _ => 0%Z) ()
             (fun _ _ _ _ _ _ _ _ _ => ["A2"]) (fun k => pretty k) cfg
             s [] "a" "A" [] "u1" "a1" "A2").
  - split; reflexivity.
  - reflexivity.
  - reflexivity.
  - exact concrete_reconciled.
  - reflexivity.
  - unfold MAX_MAX_NEW_TOKENS. simpl. lia.
  - reflexivity.
  - discriminate.
Defined.

(** ** Clearing, and retrying on nothing *)

(** X13: the clear chain, from any state, ends with the turn list, the
    identifier list, the saved message and the transcript empty; the text
    box is left as it is, no identifier is drawn and no audit record is
    built. *)
Theorem clear_chain_effect uuid4_str (s : Session) :
  run_chain true (clear_button_click uuid4_str) s
  = {| textbox := textbox s; saved_input := ""; chatbot := [];
       uuid_list := []; output_textbox := "";
       uuid_calls := uuid_calls s; clock_calls := clock_calls s;
       audit := audit s |}.
Proof.
  unfold clear_button_click. rewrite run_chain_then. unfold step_clear.
  rewrite run_chain_then. unfold step_assign_uuid. session_fields.
  assert (Hnil : assign_uuid uuid4_str [] (uuid_list s) (uuid_calls s)
                 = Ok ([], uuid_calls s)).
  { destruct (uuid_list s) as [|u l]; [reflexivity|].
    rewrite assign_uuid_shrink by (simpl; lia). done. }
  rewrite Hnil. reflexivity.
Qed.

(** X14: a retry on the empty history does nothing but empty the saved
    message: the draft recovered from the empty history is the empty
    string, which never passes validation, so nothing is displayed,
    generated or logged, whatever the identifier list is. *)
Theorem retry_on_empty_history
    uuid4_str (get_input_token_length : string -> list turn -> string -> Z)
    (pyfloat : Type)
    (run : string -> list turn -> string -> Z -> pyfloat -> pyfloat -> Z ->
           bool -> pyfloat -> list string)
    (strftime_now : nat -> string) (cfg : Settings pyfloat) (s : Session) :
  chatbot s = [] ->
  run_chain true
    (retry_button_click uuid4_str get_input_token_length pyfloat run
       strftime_now cfg) s
  = {| textbox := textbox s; saved_input := ""; chatbot := [];
       uuid_list := uuid_list s; output_textbox := output_textbox s;
       uuid_calls := uuid_calls s; clock_calls := clock_calls s;
       audit := audit s |}.
Proof.
  intros Hc. unfold retry_button_click.
  rewrite run_chain_then. unfold step_delete_prev_fn. rewrite Hc.
  cbn [delete_prev_fn last]. cbv beta match.
  rewrite run_chain_then. unfold step_check_input_token_length. session_fields.
  destruct (check_input_token_length get_input_token_length "" []
              (system_prompt pyfloat cfg)) as [[]|e] eqn:E.
  - by apply check_input_token_length_empty_raises in E.
  - reflexivity.
Qed.

Lemma retry_on_empty_history_witness :
  let s := {| textbox := "draft"; saved_input := "old"; chatbot := [];
              uuid_list := []; output_textbox := ""; uuid_calls := 0;
              clock_calls := 0; audit := [] |} in
  let cfg := {| system_prompt := "sys"; max_new_tokens := 512%Z;
                temperature := (); top_p := (); top_k := 50%Z;
                do_sample := false; repetition_penalty := () |} in
  saved_input
    (run_chain true
       (retry_button_click demo_uuid4 (fun _ _ _ => 0%Z) ()
          (fun _ _ _ _ _ _ _ _ _ => ["B"]) (fun _ => "now") cfg) s) = "".
Proof.
  intros s cfg.
  rewrite (retry_on_empty_history demo_uuid4 (fun _ _ _ => 0%Z) ()
             (fun _ _ _ _ _ _ _ _ _ => ["B"]) (fun _ => "now") cfg s eq_refl).
  reflexivity.
Defined.

(** ** [assign_uuid] followed by [output_log] *)

(** X15: on a non-empty history, [output_log] on the identifier list that
    [assign_uuid] returns never raises, whatever identifier list
    [assign_uuid] was given. When moreover every identifier is non-empty
    and the given list could be reconciled, the record is a user record
    with the last turn's user message exactly when the last turn awaits
    its response, and otherwise an assistant record with the last turn's
    assistant message. *)
Theorem assign_uuid_then_output_log uuid4_str (now : string)
    (h : list turn) (l : list uuid_pair) c :
  h <> [] ->
  exists l' c' d,
    assign_uuid uuid4_str h l c = Ok (l', c') /\
    output_log now h l' = Ok d /\
    ((forall k, uuid4_str k <> "") -> reconcilable h l ->
     forall t, last h = Some t ->
       (t.2 = "" -> role d = "user" /\ message d = t.1) /\
       (t.2 <> "" -> role d = "assistant" /\ message d = t.2)).
Proof.
  intros Hh.
  destruct (assign_uuid_total uuid4_str h l c) as (l' & c' & Hr & Hlen).
  destruct (output_log_total now h l' Hh Hlen) as [d Hd].
  exists l', c', d. split; [done|]. split; [done|].
  intros Hne Hrec t Ht.
  destruct (assign_uuid_reconciles uuid4_str h l c Hne Hrec)
    as (l2 & c2 & Hr2 & Hf).
  rewrite Hr in Hr2. injection Hr2 as <- <-.
  destruct (exists_last Hh) as (hs & t0 & ->).
  rewrite last_snoc in Ht. injection Ht as ->.
  apply Forall2_app_inv_l in Hf as (ls & k & Hf & Hk & ->).
  inversion Hk as [|? [u a] ? k' Hag Hnil]; subst. inversion Hnil; subst.
  unfold agree in Hag. simpl in Hag.
  destruct (decide (a = "")) as [->|Ha].
  - rewrite output_log_user in Hd by (symmetry; by eapply Forall2_length).
    injection Hd as <-. simpl. split; [done|]. intros Ht. tauto.
  - rewrite output_log_assistant in Hd by done.
    injection Hd as <-. simpl. split; [|done]. intros Ht. tauto.
Qed.

Lemma assign_uuid_then_output_log_witness :
  exists l' c' d,
    assign_uuid demo_uuid4 [("a", "A"); ("b", "")] [("u1", "a1")] 2
    = Ok (l', c') /\
    output_log "now" [("a", "A"); ("b", "")] l' = Ok d /\
    role d = "user" /\ message d = "b".
Proof.
  destruct (assign_uuid_then_output_log demo_uuid4 "now"
              [("a", "A"); ("b", "")] [("u1", "a1")] 2)
    as (l' & c' & d & Hr & Hd & H); [discriminate|].
  exists l', c', d. split; [exact Hr|]. split; [exact Hd|].
  apply (H demo_uuid4_nonempty (reconciled_snoc_reconcilable _ _ _
                                   concrete_reconciled) ("b", "") eq_refl).
  reflexivity.
Defined.
